(** * furniture-visualizer: the furniture/room data model and its edits

    A shallow embedding of the parts of the client that the specification
    speaks about:

    - [designService.js]: the localStorage-backed CRUD over designs;
    - [modelService.js]: the furniture catalog lookups;
    - [Editor2D.jsx]: adding, deleting and rotating items, the top-down
      preview cache and the preview-generation pass;
    - [Viewer3D.jsx]: editor-to-world conversion, the keyboard/button move
      and rotate edits and their synchronisation with the 3D scene.

    JavaScript numbers are idealised as exact rationals ([Q]); NaN and the
    infinities are not represented.  Sums and remainders of whole numbers
    below 2^53 and comparisons are exact in binary64 arithmetic too, so
    the idealisation is faithful on them; where a theorem rests on such
    arithmetic it says that the values are whole numbers.  The module
    [Double] has the binary64 operations themselves, for the places
    where the rounding of fractional values shows.  Objects that the
    code treats as open string-keyed documents (stored designs, caches)
    are finite maps. *)

From Stdlib Require Import SpecFloat ZArith QArith Qminmax Qround Lqa.
From stdpp Require Import gmap strings list pretty.

Set Warnings "-register-all".

Open Scope Q_scope.

(** ** JavaScript numbers *)

Module JS.

(** [Math.trunc]: rounding towards zero. *)
Definition trunc (q : Q) : Z := Z.quot (Qnum q) (Zpos (Qden q)).

(** The [%] operator: the remainder takes the sign of the dividend,
    [a % b = a - b * trunc (a / b)]. *)
Definition rem (a b : Q) : Q := a - b * inject_Z (trunc (a / b)).

(** [Math.max] and [Math.min] on two numbers. *)
Definition max (a b : Q) : Q := Qmax a b.
Definition min (a b : Q) : Q := Qmin a b.

(** [a < 0] as a test. *)
Definition ltb (a b : Q) : bool :=
  match a ?= b with Lt => true | _ => false end.

(** Truthiness of a number-valued identifier ([null], [undefined] and
    [0] are falsy). *)
Definition truthy_id (i : option Z) : bool :=
  match i with
  | Some z => negb (z =? 0)%Z
  | None => false
  end.

(** Truthiness of a string (only the empty string is falsy). *)
Definition truthy_str (s : string) : bool :=
  match s with
  | EmptyString => false
  | _ => true
  end.

(** [v || 0] for an optional number: [undefined] and [0] both give 0. *)
Definition or_zero (v : option Q) : Q :=
  match v with
  | Some q => q
  | None => 0
  end.

End JS.

(** ** Binary64 arithmetic *)

Module Double.

(** Binary64: 53 bits of mantissa, exponents below 1024. *)
Definition prec : Z := 53%Z.
Definition emax : Z := 1024%Z.

(** [a + b], rounded to the nearest double, ties to even. *)
Definition add (a b : spec_float) : spec_float := SFadd prec emax a b.

(** [a < b] *)
Definition ltb (a b : spec_float) : bool := SFltb a b.

(** The double of a whole number. *)
Definition of_Z (z : Z) : spec_float := binary_normalize prec emax z 0%Z false.

(** The [%] operator: NaN for an infinite dividend or a zero divisor,
    the dividend for a zero dividend or an infinite divisor, and
    otherwise the exact [a - b * trunc (a / b)], which is a double and
    has the sign of the dividend. *)
Definition rem (a b : spec_float) : spec_float :=
  match a, b with
  | S754_nan, _ | _, S754_nan => S754_nan
  | S754_infinity _, _ => S754_nan
  | _, S754_zero _ => S754_nan
  | S754_zero _, _ => a
  | _, S754_infinity _ => a
  | S754_finite sa ma ea, S754_finite _ mb eb =>
      let e := Z.min ea eb in
      let r := Z.rem (Zpos (fst (shl_align ma ea e)))
                     (Zpos (fst (shl_align mb eb e))) in
      match r with
      | Z0 => S754_zero sa
      | _ => binary_normalize prec emax (cond_Zopp sa r) e false
      end
  end.

(** Doubles can be compared for identity. *)
#[global] Instance spec_float_eq_dec : EqDecision spec_float.
Proof. solve_decision. Defined.

End Double.

(** ** The shared data model *)

(** [design.roomConfig]: sizes in editor units and the two colours. *)
Record RoomConfig := mkRoom {
  room_width : Q;
  room_height : Q;
  room_color : string;
  room_wallColor : option string
}.

(** One placed piece of furniture.  Seed data carries no [rotation]
    field, hence the option. *)
Record FurnitureItem := mkItem {
  item_id : Z;
  item_x : Q;
  item_y : Q;
  item_width : Q;
  item_height : Q;
  item_fill : string;
  item_name : string;
  item_rotation : option Q
}.

(** The object-spread updates the pages perform on an item. *)
Definition with_xy (it : FurnitureItem) (nx ny : Q) : FurnitureItem :=
  mkItem (item_id it) nx ny (item_width it) (item_height it)
         (item_fill it) (item_name it) (item_rotation it).

Definition with_rotation (it : FurnitureItem) (r : Q) : FurnitureItem :=
  mkItem (item_id it) (item_x it) (item_y it) (item_width it) (item_height it)
         (item_fill it) (item_name it) (Some r).

Definition with_transform (it : FurnitureItem) (nx ny nw nh r : Q)
  : FurnitureItem :=
  mkItem (item_id it) nx ny nw nh (item_fill it) (item_name it) (Some r).

(** [arr.findIndex(item => item.id === id)], with [None] for [-1]. *)
Fixpoint findIndex_id (id : Z) (l : list FurnitureItem) : option nat :=
  match l with
  | [] => None
  | it :: rest =>
      if (item_id it =? id)%Z then Some O
      else option_map S (findIndex_id id rest)
  end.

(** [arr.find(item => item.id === id)]. *)
Fixpoint find_id (id : Z) (l : list FurnitureItem) : option FurnitureItem :=
  match l with
  | [] => None
  | it :: rest => if (item_id it =? id)%Z then Some it else find_id id rest
  end.

(** The identities of a furniture list, in order. *)
Definition ids (l : list FurnitureItem) : list Z := map item_id l.

(** ** Geometry: editor units to world units (Viewer3D.jsx) *)

Module Geometry.

(** [const scale = 0.02] (lines 144 and 522). *)
Definition scale : Q := 0.02.

(** Lines 146-147 / 523-524: the room in world units. *)
Definition roomWidth (rc : RoomConfig) : Q := room_width rc * scale.
Definition roomDepth (rc : RoomConfig) : Q := room_height rc * scale.

(** Lines 207-208 ([loadModel]) and 526-527 ([moveSelectedFurniture]):
    the same expression, applied to the item's stored position in the
    first and to the clamped new position in the second. *)
Definition worldX (rc : RoomConfig) (ex w : Q) : Q :=
  (ex * scale) - (roomWidth rc / 2) + (w * scale / 2).

Definition worldZ (rc : RoomConfig) (ey h : Q) : Q :=
  (ey * scale) - (roomDepth rc / 2) + (h * scale / 2).

(** Initial placement of an item by [loadModel]. *)
Definition loadModel_position (rc : RoomConfig) (it : FurnitureItem) : Q * Q :=
  (worldX rc (item_x it) (item_width it),
   worldZ rc (item_y it) (item_height it)).

(** The conversion as the specification words it, over plain numbers:
    [editorX*scale - roomWidth*scale/2 + itemWidth*scale/2]. *)
Definition toWorld_spec (s editor room size : Q) : Q :=
  editor * s - room * s / 2 + size * s / 2.

End Geometry.

(** ** The 3D viewer (Viewer3D.jsx) *)

Module Viewer3D.

(** The design held in the viewer's React state. *)
Record Design := mkDesign {
  design_id : string;
  design_name : string;
  roomConfig : RoomConfig;
  furniture : list FurnitureItem
}.

(** [{...design, furniture: updatedFurniture}] *)
Definition with_furniture (d : Design) (f : list FurnitureItem) : Design :=
  mkDesign (design_id d) (design_name d) (roomConfig d) f.

(** What the edits read and write on a three.js node: the item tag in
    [userData], the position and the rotation about the vertical axis. *)
Record NodeData := mkNode {
  userData_itemId : option Z;
  position_x : Q;
  position_y : Q;
  position_z : Q;
  rotation_y : Q
}.

(** The scene graph: a node and its children. *)
Inductive Object3D : Type :=
| Obj (d : NodeData) (children : list Object3D).

(** [object.traverse(callback)] for a callback that mutates the visited
    node only: the node first, then every descendant. *)
Fixpoint traverse (cb : NodeData -> NodeData) (o : Object3D) : Object3D :=
  match o with
  | Obj d cs => Obj (cb d) (map (traverse cb) cs)
  end.

(** Whether the traversal meets a node satisfying [p] (the [modelFound]
    flag the callbacks raise). *)
Fixpoint visits (p : NodeData -> bool) (o : Object3D) : bool :=
  match o with
  | Obj d cs => p d || existsb (visits p) cs
  end.

(** Induction over the scene graph, with the hypothesis available for
    every child. *)
Section Induction.
Variable P : Object3D -> Prop.
Hypothesis step : forall d cs, Forall P cs -> P (Obj d cs).

Fixpoint Object3D_forall_ind (o : Object3D) : P o :=
  match o with
  | Obj d cs =>
      step d cs
           ((fix children_ok (l : list Object3D) : Forall P l :=
               match l with
               | [] => Forall_nil_2 P
               | c :: l' =>
                   Forall_cons_2 P c l' (Object3D_forall_ind c) (children_ok l')
               end) cs)
  end.
End Induction.

(** The nodes in traversal order. *)
Fixpoint nodes (o : Object3D) : list NodeData :=
  match o with
  | Obj d cs => d :: flat_map nodes cs
  end.

(** [child.userData && child.userData.itemId === selectedModelId] *)
Definition tagged (sel : Z) (nd : NodeData) : bool :=
  match userData_itemId nd with
  | Some i => (i =? sel)%Z
  | None => false
  end.

(** What the handlers emit besides state changes. *)
Inductive Output : Type :=
| ConsoleWarn (msg : string) (id : Z)
| ShowInfo (msg : string)
| ShowInfoRotated (name : string) (rotation : Q).

(** Component state the edit handlers touch; [out] collects the console
    and notification output, oldest first. *)
Record State := mkState {
  selectedModelId : option Z;
  design : option Design;
  sceneRef : option Object3D;
  out : list Output
}.


(** [THREE.MathUtils.degToRad]: [degrees * (Math.PI / 180)], with
    [Math.PI] the double nearest to pi. *)
Definition Math_PI : Q := 884279719003555 # 281474976710656.
Definition degToRad (degrees : Q) : Q := degrees * (Math_PI / 180).

Definition moveDistance : Q := 10.

(** Lines 505-520: the clamped step. *)
Definition stepped (direction : string) (rc : RoomConfig) (item : FurnitureItem)
  : Q * Q :=
  if String.eqb direction "left" then
    (JS.max 0 (item_x item - moveDistance), item_y item)
  else if String.eqb direction "right" then
    (JS.min (room_width rc - item_width item) (item_x item + moveDistance),
     item_y item)
  else if String.eqb direction "up" then
    (item_x item, JS.max 0 (item_y item - moveDistance))
  else if String.eqb direction "down" then
    (item_x item,
     JS.min (room_height rc - item_height item) (item_y item + moveDistance))
  else (item_x item, item_y item).

Definition set_position (x z : Q) (nd : NodeData) : NodeData :=
  mkNode (userData_itemId nd) x (position_y nd) z (rotation_y nd).

Definition set_rotation (r : Q) (nd : NodeData) : NodeData :=
  mkNode (userData_itemId nd) (position_x nd) (position_y nd) (position_z nd) r.

(** The traversal callbacks of lines 530-536 and 564-569. *)
Definition place (sel : Z) (x z : Q) (nd : NodeData) : NodeData :=
  if tagged sel nd then set_position x z nd else nd.

Definition turn (sel : Z) (r : Q) (nd : NodeData) : NodeData :=
  if tagged sel nd then set_rotation r nd else nd.

Definition not_found_msg : string := "Could not find 3D model for item:".

(** Lines 492-548. *)
Definition moveSelectedFurniture (direction : string) (st : State) : State :=
  match selectedModelId st, design st, sceneRef st with
  | Some sel, Some d, Some scene =>
      if negb (JS.truthy_id (Some sel)) then st else
      match findIndex_id sel (furniture d) with
      | None => st
      | Some selectedItemIndex =>
          match furniture d !! selectedItemIndex with
          | None => st
          | Some item =>
              let '(newX, newY) := stepped direction (roomConfig d) item in
              let x := Geometry.worldX (roomConfig d) newX (item_width item) in
              let z := Geometry.worldZ (roomConfig d) newY (item_height item) in
              let modelFound := visits (tagged sel) scene in
              let scene' := traverse (place sel x z) scene in
              if negb modelFound then
                mkState (selectedModelId st) (design st) (Some scene')
                        (out st ++ [ConsoleWarn not_found_msg sel])
              else
                let updatedFurniture :=
                  <[selectedItemIndex := with_xy item newX newY]> (furniture d) in
                mkState (selectedModelId st)
                        (Some (with_furniture d updatedFurniture))
                        (Some scene')
                        (out st ++ [ShowInfo ("Moved " ++ item_name item
                                              ++ " " ++ direction)])
          end
      end
  | _, _, _ => st
  end.

(** Lines 559-561: add the step, wrap, and lift a negative remainder. *)
Definition wrapped (currentRotation degrees : Q) : Q :=
  let newRotation := JS.rem (currentRotation + degrees) 360 in
  if JS.ltb newRotation 0 then newRotation + 360 else newRotation.

(** The same lines in binary64 arithmetic. *)
Definition wrapped_double (currentRotation degrees : spec_float) : spec_float :=
  let newRotation :=
    Double.rem (Double.add currentRotation degrees) (Double.of_Z 360) in
  if Double.ltb newRotation (Double.of_Z 0)
  then Double.add newRotation (Double.of_Z 360) else newRotation.

(** Lines 550-581. *)
Definition rotateSelectedFurniture (degrees : Q) (st : State) : State :=
  match selectedModelId st, design st, sceneRef st with
  | Some sel, Some d, Some scene =>
      if negb (JS.truthy_id (Some sel)) then st else
      match findIndex_id sel (furniture d) with
      | None => st
      | Some selectedItemIndex =>
          match furniture d !! selectedItemIndex with
          | None => st
          | Some item =>
              let currentRotation := JS.or_zero (item_rotation item) in
              let newRotation := wrapped currentRotation degrees in
              let modelFound := visits (tagged sel) scene in
              let scene' := traverse (turn sel (degToRad newRotation)) scene in
              if negb modelFound then
                mkState (selectedModelId st) (design st) (Some scene')
                        (out st ++ [ConsoleWarn not_found_msg sel])
              else
                let updatedFurniture :=
                  <[selectedItemIndex := with_rotation item newRotation]>
                    (furniture d) in
                mkState (selectedModelId st)
                        (Some (with_furniture d updatedFurniture))
                        (Some scene')
                        (out st ++ [ShowInfoRotated (item_name item) newRotation])
          end
      end
  | _, _, _ => st
  end.

(** The rotation slider ([min=0 max=360 step=15], lines 912-919) hands
    over [parseInt(e.target.value)], an integer. *)
Definition slider_value (v : Z) : bool :=
  ((0 <=? v) && (v <=? 360) && (v mod 15 =? 0))%Z.

(** Lines 583-610.  [parseInt] of the integer it receives is that
    integer. *)
Definition updateFurnitureRotation (degrees : Z) (st : State) : State :=
  match selectedModelId st, design st, sceneRef st with
  | Some sel, Some d, Some scene =>
      if negb (JS.truthy_id (Some sel)) then st else
      match findIndex_id sel (furniture d) with
      | None => st
      | Some selectedItemIndex =>
          match furniture d !! selectedItemIndex with
          | None => st
          | Some item =>
              let newRotation := inject_Z degrees in
              let modelFound := visits (tagged sel) scene in
              let scene' := traverse (turn sel (degToRad newRotation)) scene in
              if negb modelFound then
                mkState (selectedModelId st) (design st) (Some scene')
                        (out st ++ [ConsoleWarn not_found_msg sel])
              else
                let updatedFurniture :=
                  <[selectedItemIndex := with_rotation item newRotation]>
                    (furniture d) in
                mkState (selectedModelId st)
                        (Some (with_furniture d updatedFurniture))
                        (Some scene')
                        (out st)
          end
      end
  | _, _, _ => st
  end.

(** The [keydown] handler of lines 664-689, on [e.key.toLowerCase()]
    (it is only installed while an item is selected and a design is
    loaded, and ignores keys typed into input fields).  The arrow and
    rotate buttons call the two edit functions directly. *)
Definition handleKeyDown (key : string) (st : State) : State :=
  if String.eqb key "w" then moveSelectedFurniture "up" st
  else if String.eqb key "a" then moveSelectedFurniture "left" st
  else if String.eqb key "s" then moveSelectedFurniture "down" st
  else if String.eqb key "d" then moveSelectedFurniture "right" st
  else if String.eqb key "q" then rotateSelectedFurniture (-15) st
  else if String.eqb key "e" then rotateSelectedFurniture 15 st
  else st.

End Viewer3D.

(** ** The 2D editor (Editor2D.jsx) *)

Module Editor2D.

(** Lines 281-288 (the [icon] field only feeds the palette). *)
Record FurnitureType := mkType {
  ft_type : string;
  ft_name : string;
  ft_width : Q;
  ft_height : Q;
  ft_fill : string
}.

Definition sofaType : FurnitureType := mkType "sofa" "Sofa" 120 70 "#8B4513".

Definition furnitureTypes : list FurnitureType :=
  [ sofaType;
    mkType "table" "Table" 80 80 "#A0522D";
    mkType "bed" "Bed" 160 200 "#CD853F";
    mkType "bookshelf" "Bookshelf" 60 120 "#D2B48C";
    mkType "dresser" "Dresser" 100 50 "#8B4513";
    mkType "plant" "Plant" 40 40 "#228B22" ].

(** How a handler ends: normally, or with an uncaught exception. *)
Inductive Completion : Type :=
| Returned
| Threw (error : string).

(** Editor state: the React state cells the handlers use, and the
    notifications shown so far. *)
Record State := mkState {
  roomConfig : RoomConfig;
  furniture : list FurnitureItem;
  selectedId : option Z;
  modelPreviews : gmap string string;
  notifications : list string
}.

Definition setFurniture (st : State) (f : list FurnitureItem) : State :=
  mkState (roomConfig st) f (selectedId st) (modelPreviews st) (notifications st).

Definition setSelectedId (st : State) (s : option Z) : State :=
  mkState (roomConfig st) (furniture st) s (modelPreviews st) (notifications st).

Definition setModelPreviews (st : State) (p : gmap string string) : State :=
  mkState (roomConfig st) (furniture st) (selectedId st) p (notifications st).

Definition showInfo (st : State) (msg : string) : State :=
  mkState (roomConfig st) (furniture st) (selectedId st) (modelPreviews st)
          (notifications st ++ [msg]).

(** Line 220: [selectedId ? furniture.find(...) : null]. *)
Definition selectedItem (st : State) : option FurnitureItem :=
  match selectedId st with
  | Some sel => if JS.truthy_id (Some sel) then find_id sel (furniture st) else None
  | None => None
  end.

(** Line 292: [furnitureTypes.find(f => f.type === type) || furnitureTypes[0]]. *)
Definition lookupType (type : string) : FurnitureType :=
  match List.find (fun f => String.eqb (ft_type f) type) furnitureTypes with
  | Some f => f
  | None => List.hd sofaType furnitureTypes
  end.

(** Lines 291-308.  [now] is the reading of [Date.now()]. *)
Definition addFurniture (now : Z) (type : string) (st : State) : State :=
  let furnitureType := lookupType type in
  let newItem :=
    mkItem now
           (room_width (roomConfig st) / 2 - ft_width furnitureType / 2)
           (room_height (roomConfig st) / 2 - ft_height furnitureType / 2)
           (ft_width furnitureType) (ft_height furnitureType)
           (ft_fill furnitureType) (ft_name furnitureType) (Some 0) in
  showInfo
    (setSelectedId (setFurniture st (furniture st ++ [newItem])) (Some now))
    ("Added new " ++ ft_name furnitureType).

(** Lines 323-332. *)
Definition updateFurnitureRotation (degrees : Q) (st : State) : State :=
  match selectedId st with
  | Some sel =>
      if negb (JS.truthy_id (Some sel)) then st else
      setFurniture st
        (map (fun item => if (item_id item =? sel)%Z
                          then with_rotation item degrees else item)
             (furniture st))
  | None => st
  end.

(** The error of reading [name] off [undefined]. *)
Definition undefined_name : string :=
  "TypeError: Cannot read properties of undefined (reading 'name')".

(** Lines 335-342.  When no item carries the selected id,
    [itemToDelete] is [undefined] and reading its [name] throws after
    the two state updates were issued. *)
Definition deleteSelected (st : State) : State * Completion :=
  match selectedId st with
  | Some sel =>
      if negb (JS.truthy_id (Some sel)) then (st, Returned) else
      let itemToDelete := find_id sel (furniture st) in
      let st' :=
        setSelectedId
          (setFurniture st
             (List.filter (fun item => negb (item_id item =? sel)%Z)
                          (furniture st)))
          None in
      match itemToDelete with
      | Some it => (showInfo st' ("Deleted " ++ item_name it), Returned)
      | None =>
          (st', Threw undefined_name)
      end
  | None => (st, Returned)
  end.

(** The rotate steps: the [r] key (line 396, 15 degrees) and the
    rotate button (line 697, 90 degrees). *)
Definition rotateStep (step : Q) (st : State) : State :=
  let current :=
    match selectedItem st with
    | Some it => JS.or_zero (item_rotation it)
    | None => 0
    end in
  updateFurnitureRotation (JS.rem (current + step) 360) st.

(** The rotation the steps hand over, [(current + step) % 360], in
    binary64 arithmetic. *)
Definition rotated_double (current step : spec_float) : spec_float :=
  Double.rem (Double.add current step) (Double.of_Z 360).

(** Lines 391-403. *)
Definition handleKeyDown (key : string) (st : State) : State * Completion :=
  if negb (JS.truthy_id (selectedId st)) then (st, Returned) else
  let st1 := if String.eqb key "r" then rotateStep 15 st else st in
  if String.eqb key "Delete" || String.eqb key "Backspace"
  then deleteSelected st1
  else (st1, Returned).

(** The rotation slider ([min=0 max=360 step=15], lines 687-695) hands
    over [parseInt(e.target.value)]. *)
Definition slider_value (v : Z) : bool :=
  ((0 <=? v) && (v <=? 360) && (v mod 15 =? 0))%Z.

Definition onRotationSlider (v : Z) (st : State) : State :=
  updateFurnitureRotation (inject_Z v) st.

(** What the handlers read off the dragged or transformed Konva node. *)
Record KonvaNode := mkKonva {
  node_x : Q;
  node_y : Q;
  node_width : Q;
  node_height : Q;
  node_scaleX : Q;
  node_scaleY : Q;
  node_rotation : Q
}.

(** Lines 821-833, for the item whose shape was dragged. *)
Definition onDragEnd (id : Z) (node : KonvaNode) (st : State) : State :=
  setFurniture st
    (map (fun f => if (item_id f =? id)%Z
                   then with_xy f (node_x node) (node_y node) else f)
         (furniture st)).

(** Lines 834-850, for the item whose shape was transformed. *)
Definition onTransformEnd (id : Z) (node : KonvaNode) (st : State) : State :=
  setFurniture st
    (map (fun f => if (item_id f =? id)%Z
                   then with_transform f (node_x node) (node_y node)
                          (node_width node * node_scaleX node)
                          (node_height node * node_scaleY node)
                          (node_rotation node)
                   else f)
         (furniture st)).

(** *** Colour, room and resize handlers *)

Definition with_fill (it : FurnitureItem) (color : string) : FurnitureItem :=
  mkItem (item_id it) (item_x it) (item_y it) (item_width it) (item_height it)
         color (item_name it) (item_rotation it).

(** Lines 311-320. *)
Definition updateFurnitureColor (color : string) (st : State) : State :=
  match selectedId st with
  | Some sel =>
      if negb (JS.truthy_id (Some sel)) then st else
      setFurniture st
        (map (fun item => if (item_id item =? sel)%Z
                          then with_fill item color else item)
             (furniture st))
  | None => st
  end.

Definition setRoomConfig (st : State) (rc : RoomConfig) : State :=
  mkState rc (furniture st) (selectedId st) (modelPreviews st) (notifications st).

(** The room sliders (lines 578-585 and 595-602): the width runs from 300
    to 1000, the height from 200 to 1000, and the handlers store
    [parseInt(e.target.value)]. *)
Definition width_slider_value (v : Z) : bool := ((300 <=? v) && (v <=? 1000))%Z.
Definition height_slider_value (v : Z) : bool := ((200 <=? v) && (v <=? 1000))%Z.

Definition onRoomWidthSlider (v : Z) (st : State) : State :=
  setRoomConfig st
    (mkRoom (inject_Z v) (room_height (roomConfig st))
            (room_color (roomConfig st)) (room_wallColor (roomConfig st))).

Definition onRoomHeightSlider (v : Z) (st : State) : State :=
  setRoomConfig st
    (mkRoom (room_width (roomConfig st)) (inject_Z v)
            (room_color (roomConfig st)) (room_wallColor (roomConfig st))).

(** The box the transformer proposes while a handle is dragged. *)
Record Box := mkBox {
  box_x : Q;
  box_y : Q;
  box_width : Q;
  box_height : Q;
  box_rotation : Q
}.

(** Lines 860-866. *)
Definition boundBoxFunc (oldBox newBox : Box) : Box :=
  if JS.ltb (box_width newBox) 20 || JS.ltb (box_height newBox) 20
  then oldBox else newBox.

(** *** The top-down preview cache *)

(** The module-level cache, with two ghost logs: the keys for which
    [createTopDownImage] was entered and the keys for which a render was
    started, oldest first. *)
Record PreviewEnv := mkEnv {
  topDownImageCache : gmap string string;
  calls : list string;
  renders : list string
}.

Section Previews.

(** The runtime's number-to-string conversion in template literals. *)
Variable numberToString : Q -> string.

(** The body of the [try] block of [createTopDownImage] between the
    cache probe and the cache write (model load, WebGL render,
    [toDataURL]): the data URL, or [None] when something in it throws.
    The first argument counts the renders started before this one. *)
Variable render : nat -> string -> string -> Q -> option string.

(** Lines 27 and 420: the template literal. *)
Definition cacheKey (name fill : string) (rotation : Q) : string :=
  name ++ "-" ++ fill ++ "-" ++ numberToString rotation.

Definition itemKey (item : FurnitureItem) : string :=
  cacheKey (item_name item) (item_fill item) (JS.or_zero (item_rotation item)).

(** A truthy entry of a string-valued cache object. *)
Definition cached (m : gmap string string) (key : string) : option string :=
  match m !! key with
  | Some v => if JS.truthy_str v then Some v else None
  | None => None
  end.

(** Lines 26-124.  The result is the data URL, or [None] for [null]. *)
Definition createTopDownImage (env : PreviewEnv)
           (modelName color : string) (rotation : Q)
  : PreviewEnv * option string :=
  let key := cacheKey modelName color rotation in
  let entered := calls env ++ [key] in
  match cached (topDownImageCache env) key with
  | Some hit => (mkEnv (topDownImageCache env) entered (renders env), Some hit)
  | None =>
      let started := renders env ++ [key] in
      match render (length (renders env)) modelName color rotation with
      | Some dataURL =>
          let cache' :=
            if JS.truthy_str dataURL
            then <[key := dataURL]> (topDownImageCache env)
            else topDownImageCache env in
          (mkEnv cache' entered started, Some dataURL)
      | None => (mkEnv (topDownImageCache env) entered started, None)
      end
  end.

(** The loop state of [generatePreviews]. *)
Record Pass := mkPass {
  newPreviews : gmap string string;
  updatedPreviews : bool;
  env : PreviewEnv
}.

(** Lines 419-441: one iteration. *)
Definition previewItem (p : Pass) (item : FurnitureItem) : Pass :=
  let key := itemKey item in
  match cached (newPreviews p) key with
  | Some _ => p
  | None =>
      let '(env', imageUrl) :=
        createTopDownImage (env p) (item_name item) (item_fill item)
                           (JS.or_zero (item_rotation item)) in
      match imageUrl with
      | Some url =>
          if JS.truthy_str url
          then mkPass (<[key := url]> (newPreviews p)) true env'
          else mkPass (newPreviews p) (updatedPreviews p) env'
      | None => mkPass (newPreviews p) (updatedPreviews p) env'
      end
  end.

(** Lines 411-449: one pass over the furniture. *)
Definition generatePreviews (st : State) (e : PreviewEnv) : State * PreviewEnv :=
  match furniture st with
  | [] => (st, e)
  | _ =>
      let p := fold_left previewItem (furniture st)
                         (mkPass (modelPreviews st) false e) in
      ((if updatedPreviews p then setModelPreviews st (newPreviews p) else st),
       env p)
  end.

(** Rendering succeeds, with a non-empty data URL, for the items of
    [l] whose key is [k]. *)
Definition renders_well (k : string) (l : list FurnitureItem) : Prop :=
  forall it, In it l -> itemKey it = k ->
             forall n, exists url,
               render n (item_name it) (item_fill it)
                      (JS.or_zero (item_rotation it)) = Some url /\
               JS.truthy_str url = true.

(** How often a key occurs in a log. *)
Definition occurrences (key : string) (log : list string) : nat :=
  length (List.filter (String.eqb key) log).

End Previews.

End Editor2D.

(** ** The persistence service (designService.js) *)

Module DesignService.

(** JSON values, as [JSON.parse] returns them. *)
Inductive json : Type :=
| JNull
| JBool (b : bool)
| JNum (q : Q)
| JStr (s : string)
| JArr (items : list json)
| JObj (fields : list (string * json)).

(** A stored design, and equally the partial design handed to
    [updateDesign]: an object with string keys. *)
Abbreviation Design := (gmap string json).

(** [localStorage], reduced to the entry the service keeps; the JSON
    text is represented by the value it parses to, [None] when the key
    was never written. *)
Record Storage := mkStorage {
  furniture_designs : option (list Design)
}.

(** A settled promise. *)
Inductive Promise (A : Type) : Type :=
| Resolved (value : A)
| Rejected (message : string).
Arguments Resolved {A} value.
Arguments Rejected {A} message.

Definition not_found : string := "Design not found".

(** Lines 61-65. *)
Definition getDesigns (ls : Storage) : list Design :=
  match furniture_designs ls with
  | Some designs => designs
  | None => []
  end.

(** [d.id === id] for the string [id] the pages pass (the route
    parameter). *)
Definition has_id (id : string) (d : Design) : bool :=
  match d !! "id" with
  | Some (JStr s) => String.eqb s id
  | _ => false
  end.

(** [designs.findIndex(d => d.id === id)], with [None] for [-1]. *)
Fixpoint findIndex (id : string) (designs : list Design) : option nat :=
  match designs with
  | [] => None
  | d :: rest =>
      if has_id id d then Some O else option_map S (findIndex id rest)
  end.

(** Lines 68-77. *)
Definition getDesign (id : string) (ls : Storage) : Promise Design :=
  let designs := getDesigns ls in
  match List.find (has_id id) designs with
  | Some design => Resolved design
  | None => Rejected not_found
  end.

(** Lines 105-109: [{...designs[index], ...designData, lastModified}].
    A later spread overrides an earlier one; map union keeps the left
    operand on a common key. *)
Definition merged (stored designData : Design) (now : string) : Design :=
  <["lastModified" := JStr now]> (designData ∪ stored).

(** Lines 97-115.  [now] is [new Date().toISOString()].  The result
    pairs the storage afterwards with the settled promise. *)
Definition updateDesign (id : string) (designData : Design) (now : string)
           (ls : Storage) : Storage * Promise Design :=
  let designs := getDesigns ls in
  match findIndex id designs with
  | None => (ls, Rejected not_found)
  | Some index =>
      match designs !! index with
      | None => (ls, Rejected not_found)
      | Some stored =>
          let updatedDesign := merged stored designData now in
          (mkStorage (Some (<[index := updatedDesign]> designs)),
           Resolved updatedDesign)
      end
  end.

(** Lines 117-124. *)
Definition deleteDesign (id : string) (ls : Storage) : Storage * Promise bool :=
  let designs := getDesigns ls in
  let updatedDesigns := List.filter (fun d => negb (has_id id d)) designs in
  (mkStorage (Some updatedDesigns), Resolved true).

(** [JSON.parse(localStorage.getItem('user'))._id] (line 87), on the
    parsed [user] entry: reading a property off [null] throws, off any
    other non-object gives [undefined]. *)
Definition null_id : string :=
  "TypeError: Cannot read properties of null (reading '_id')".

Fixpoint field (name : string) (fields : list (string * json)) : option json :=
  match fields with
  | [] => None
  | (k, v) :: rest => if String.eqb k name then Some v else field name rest
  end.

Definition user_id (user : option json) : Promise (option json) :=
  match user with
  | None => Rejected null_id
  | Some JNull => Rejected null_id
  | Some (JObj fields) => Resolved (field "_id" fields)
  | Some _ => Resolved None
  end.

(** Lines 83-88: [{id, ...designData, lastModified, userId}].  A [userId]
    of [undefined] is not serialised. *)
Definition created (designData : Design) (now : Z) (iso : string)
           (uid : option json) : Design :=
  let stamped :=
    <["lastModified" := JStr iso]> (designData ∪ {["id" := JStr (pretty now)]}) in
  match uid with
  | Some v => <["userId" := v]> stamped
  | None => delete "userId" stamped
  end.

(** Lines 80-94.  [now] is [Date.now()], [iso] is
    [new Date().toISOString()], [user] the parsed [user] entry of
    [localStorage]. *)
Definition createDesign (designData : Design) (now : Z) (iso : string)
           (user : option json) (ls : Storage) : Storage * Promise Design :=
  let designs := getDesigns ls in
  match user_id user with
  | Rejected e => (ls, Rejected e)
  | Resolved uid =>
      let newDesign := created designData now iso uid in
      (mkStorage (Some (designs ++ [newDesign])), Resolved newDesign)
  end.

End DesignService.

(** ** The dashboard (src/unnamed/part_001) *)

Module Dashboard.

(** Lines 30-40: [confirmed] is the answer to [window.confirm].  The
    result is the dashboard's list and the storage afterwards. *)
Definition handleDelete (confirmed : bool) (id : string)
           (designs : list (gmap string DesignService.json))
           (ls : DesignService.Storage)
  : list (gmap string DesignService.json) * DesignService.Storage :=
  if negb confirmed then (designs, ls) else
  let '(ls', _) := DesignService.deleteDesign id ls in
  (List.filter (fun design => negb (DesignService.has_id id design)) designs, ls').

End Dashboard.

(** ** Notifications (src/unnamed/part_002) *)

Module NotificationContext.

Record Notification := mkNotification {
  id : Z;
  message : string;
  type : string;
  duration : Q
}.

(** Lines 11-15, with the defaults of the parameter list; [now] is
    [Date.now()].  The result is the list afterwards and the returned
    id. *)
Definition addNotification (now : Z) (message : string) (type : option string)
           (duration : option Q) (notifications : list Notification)
  : list Notification * Z :=
  (notifications
     ++ [mkNotification now message (default "info" type) (default 3000 duration)],
   now).

(** Lines 17-19. *)
Definition removeNotification (i : Z) (notifications : list Notification)
  : list Notification :=
  List.filter (fun notification => negb (id notification =? i)%Z) notifications.

(** Lines 22-36. *)
Definition showSuccess now message duration :=
  addNotification now message (Some "success") duration.
Definition showError now message duration :=
  addNotification now message (Some "error") duration.
Definition showWarning now message duration :=
  addNotification now message (Some "warning") duration.
Definition showInfo now message duration :=
  addNotification now message (Some "info") duration.

End NotificationContext.

(** ** The furniture catalog (modelService.js) *)

Module ModelService.

(** The outcome of reading [table[key]] on an object literal: an own
    property, a member inherited from [Object.prototype], or
    [undefined]. *)
Inductive Property (V : Type) : Type :=
| Own (v : V)
| Inherited (member : string)
| Undefined.
Arguments Own {V} v.
Arguments Inherited {V} member.
Arguments Undefined {V}.

(** The members every object literal inherits. *)
Definition Object_prototype : list string :=
  [ "constructor"; "__defineGetter__"; "__defineSetter__"; "hasOwnProperty";
    "__lookupGetter__"; "__lookupSetter__"; "isPrototypeOf";
    "propertyIsEnumerable"; "toString"; "valueOf"; "__proto__";
    "toLocaleString" ].

(** [table[key]] *)
Definition get {V : Type} (table : gmap string V) (key : string) : Property V :=
  match table !! key with
  | Some v => Own v
  | None =>
      if existsb (String.eqb key) Object_prototype
      then Inherited key else Undefined
  end.

(** [a || b]: [a] when it is truthy.  The inherited members are
    functions (an object for [__proto__]), all truthy. *)
Definition or_else {V : Type} (truthy : V -> bool) (a b : Property V)
  : Property V :=
  match a with
  | Own v => if truthy v then a else b
  | Inherited _ => a
  | Undefined => b
  end.

Definition truthy_num (q : Q) : bool := negb (Qeq_bool q 0).

(** Lines 4-12. *)
Definition MODEL_MAP : gmap string string :=
  list_to_map
    [ ("Sofa", "/models/canba.glb"); ("Table", "/models/table.glb");
      ("Bed", "/models/bed-2.glb"); ("Bookshelf", "/models/bookshelf.glb");
      ("Dresser", "/models/dresser.glb"); ("Plant", "/models/plant.glb");
      ("default", "/models/cube.glb") ].

(** Lines 14-22. *)
Definition MODEL_SCALES : gmap string Q :=
  list_to_map
    [ ("Sofa", 1); ("Table", 0.18); ("Bed", 1.9); ("Bookshelf", 0.45);
      ("Dresser", 0.4); ("Plant", 0.3); ("default", 0.5) ].

(** Lines 24-32. *)
Definition MODEL_Y_POSITIONS : gmap string Q :=
  list_to_map
    [ ("Sofa", 0); ("Table", 0.7); ("Bed", 0.5); ("Bookshelf", 0.5);
      ("Dresser", 0.3); ("Plant", 0.1); ("default", 0) ].

(** Lines 34-42. *)
Definition MODEL_ROTATIONS : gmap string Q :=
  list_to_map
    [ ("Sofa", 0); ("Table", 0); ("Bed", 0); ("Bookshelf", 0);
      ("Dresser", 0); ("Plant", 0); ("default", 0) ].

Record TopDown := mkTopDown {
  cameraHeight : Q;
  rotationOffset : Q;
  td_scale : Q
}.

(** Lines 44-52. *)
Definition TOP_DOWN_ADJUSTMENTS : gmap string TopDown :=
  list_to_map
    [ ("Sofa", mkTopDown 8 0 1.3); ("Table", mkTopDown 7 0 1.2);
      ("Bed", mkTopDown 12 0 1.5); ("Bookshelf", mkTopDown 10 0 1.4);
      ("Dresser", mkTopDown 6 0 1.2); ("Plant", mkTopDown 5 0 1.0);
      ("default", mkTopDown 8 0 1.2) ].

(** Lines 58-60. *)
Definition getModelPath (furnitureType : string) : Property string :=
  or_else JS.truthy_str (get MODEL_MAP furnitureType) (get MODEL_MAP "default").

Record ModelConfig := mkConfig {
  scale : Property Q;
  yPosition : Property Q;
  rotation : Property Q
}.

(** Lines 62-68. *)
Definition getModelConfig (furnitureType : string) : ModelConfig :=
  mkConfig
    (or_else truthy_num (get MODEL_SCALES furnitureType)
             (get MODEL_SCALES "default"))
    (or_else truthy_num (get MODEL_Y_POSITIONS furnitureType)
             (get MODEL_Y_POSITIONS "default"))
    (or_else truthy_num (get MODEL_ROTATIONS furnitureType)
             (get MODEL_ROTATIONS "default")).

(** Lines 152-154. *)
Definition getTopDownViewSettings (modelType : string) : Property TopDown :=
  or_else (fun _ => true) (get TOP_DOWN_ADJUSTMENTS modelType)
          (get TOP_DOWN_ADJUSTMENTS "default").

(** The keys of the five tables. *)
Definition catalog_keys : list string :=
  ["Sofa"; "Table"; "Bed"; "Bookshelf"; "Dresser"; "Plant"; "default"].

(** The "default" entries of the three configuration tables. *)
Definition default_config : ModelConfig :=
  mkConfig (Own 0.5) (Own 0) (Own 0).

(** *** The model cache *)

(** [Object.values(MODEL_MAP)], in the order of the literal. *)
Definition modelPaths : list string :=
  [ "/models/canba.glb"; "/models/table.glb"; "/models/bed-2.glb";
    "/models/bookshelf.glb"; "/models/dresser.glb"; "/models/plant.glb";
    "/models/cube.glb" ].

(** [!table[key]] for a table of objects. *)
Definition is_undefined {V : Type} (p : Property V) : bool :=
  match p with
  | Undefined => true
  | _ => false
  end.

(** How a call ends. *)
Inductive Outcome (M : Type) : Type :=
| Returns (m : M)
| Throws (error : string).
Arguments Returns {M} m.
Arguments Throws {M} error.

Definition not_a_function : string :=
  "TypeError: modelCache[modelPath].clone is not a function".

Section ModelCache.

(** A loaded scene graph and its [clone()]. *)
Variable Model : Type.
Variable clone : Model -> Model.

(** [_loadGLTF] (lines 90-99): the scene of the file at the path, or the
    loader's error.  The first argument counts the loads started before
    this one. *)
Variable loadGLTF : nat -> string -> Model + string.

(** The text a member of [Object.prototype] turns into when it is used as
    a property key or handed to the loader. *)
Variable sourceText : string -> string.

(** The module-level [modelCache] (line 54), with the paths handed to the
    loader and the errors written to the console, oldest first. *)
Record CacheEnv := mkCache {
  modelCache : gmap string Model;
  loads : list string;
  console : list string
}.

(** [!modelCache[path]] (line 133), and a cache that kept all its
    entries. *)
Definition uncached (c : gmap string Model) (path : string) : bool :=
  is_undefined (get c path).

Definition grows (c c' : gmap string Model) : Prop :=
  forall k m, c !! k = Some m -> c' !! k = Some m.

(** Lines 73-87, from the cache probe on. *)
Definition loadModelPath (modelPath : string) (env : CacheEnv)
  : CacheEnv * Outcome Model :=
  match get (modelCache env) modelPath with
  | Own cachedModel => (env, Returns (clone cachedModel))
  | Inherited _ => (env, Throws not_a_function)
  | Undefined =>
      match loadGLTF (length (loads env)) modelPath with
      | inl model =>
          (mkCache (<[modelPath := clone model]> (modelCache env))
                   (loads env ++ [modelPath]) (console env),
           Returns model)
      | inr error =>
          (mkCache (modelCache env) (loads env ++ [modelPath])
                   (console env ++ [error]),
           Throws error)
      end
  end.

(** The key a looked-up path makes. *)
Definition pathKey (path : Property string) : string :=
  match path with
  | Own p => p
  | Inherited member => sourceText member
  | Undefined => "undefined"
  end.

(** Lines 70-88. *)
Definition loadModel (furnitureType : string) (env : CacheEnv)
  : CacheEnv * Outcome Model :=
  loadModelPath (pathKey (getModelPath furnitureType)) env.

(** The loop state of [preloadModels]: the environment, the counter and
    the arguments the progress callback was called with. *)
Record Preload := mkPreload {
  pre_env : CacheEnv;
  loaded : nat;
  progress : list (nat * nat)
}.

(** Lines 132-143: one iteration. *)
Definition preloadPath (total : nat) (withCallback : bool)
           (p : Preload) (path : string) : Preload :=
  match get (modelCache (pre_env p)) path with
  | Own _ => p
  | Inherited _ => p
  | Undefined =>
      let env := pre_env p in
      match loadGLTF (length (loads env)) path with
      | inl scene =>
          mkPreload
            (mkCache (<[path := scene]> (modelCache env))
                     (loads env ++ [path]) (console env))
            (S (loaded p))
            (if withCallback
             then progress p ++ [(S (loaded p), total)] else progress p)
      | inr error =>
          mkPreload
            (mkCache (modelCache env) (loads env ++ [path])
                     (console env ++ [error]))
            (loaded p) (progress p)
      end
  end.

(** Lines 127-144. *)
Definition preloadModels (withCallback : bool) (env : CacheEnv) : Preload :=
  fold_left (preloadPath (length modelPaths) withCallback) modelPaths
            (mkPreload env O []).

(** Lines 146-150. *)
Definition clearCache (env : CacheEnv) : CacheEnv :=
  mkCache ∅ (loads env) (console env).

End ModelCache.

End ModelService.

(** ** Predicates of the specification *)

(** A rotation in [[0, 360)]. *)
Definition normalized (r : Q) : Prop := 0 <= r /\ r < 360.

Definition rotations_normalized (l : list FurnitureItem) : Prop :=
  Forall (fun it => normalized (JS.or_zero (item_rotation it))) l.

(** The number is the whole number [z]; up to 2^52 in size, so that
    the sum of two such numbers is exact in binary64 arithmetic. *)
Definition whole (q : Q) (z : Z) : Prop :=
  q == inject_Z z /\ (Z.abs z <= 2 ^ 52)%Z.



(** The item's bounds lie within the room, in editor units. *)
Definition in_room (rc : RoomConfig) (it : FurnitureItem) : Prop :=
  0 <= item_x it /\ item_x it + item_width it <= room_width rc /\
  0 <= item_y it /\ item_y it + item_height it <= room_height rc.

(** The same in the terms of the clamp of [moveSelectedFurniture]: the
    position lies between 0 and the room size minus the item size. *)
Definition within_walls (rc : RoomConfig) (it : FurnitureItem) : Prop :=
  0 <= item_x it /\ item_x it <= room_width rc - item_width it /\
  0 <= item_y it /\ item_y it <= room_height rc - item_height it.




(** An edit that was given up: design, scene and selection are those of
    before, and one warning naming the selection was logged. *)
Definition abandoned (sel : Z) (st st' : Viewer3D.State) : Prop :=
  Viewer3D.design st' = Viewer3D.design st /\
  Viewer3D.sceneRef st' = Viewer3D.sceneRef st /\
  Viewer3D.selectedModelId st' = Viewer3D.selectedModelId st /\
  Viewer3D.out st'
  = Viewer3D.out st ++ [Viewer3D.ConsoleWarn Viewer3D.not_found_msg sel].

(** What an edit of the viewer can have done to the design: nothing but
    the entry of the selected item. *)
Definition only_selected_entry_changed (st st' : Viewer3D.State) : Prop :=
  Viewer3D.selectedModelId st' = Viewer3D.selectedModelId st /\
  match Viewer3D.design st, Viewer3D.design st' with
  | Some d, Some d' =>
      Viewer3D.design_id d' = Viewer3D.design_id d /\
      Viewer3D.design_name d' = Viewer3D.design_name d /\
      Viewer3D.roomConfig d' = Viewer3D.roomConfig d /\
      ids (Viewer3D.furniture d') = ids (Viewer3D.furniture d) /\
      forall j it, Viewer3D.furniture d !! j = Some it ->
                   Some (item_id it) <> Viewer3D.selectedModelId st ->
                   Viewer3D.furniture d' !! j = Some it
  | None, None => True
  | _, _ => False
  end.

(** ** Sample data *)

Module Sample.

(** The seeded "Living Room": 500 by 400. *)
Definition room : RoomConfig := mkRoom 500 400 "#F5F5DC" (Some "#F5F5F5").

(** An item of width 100 and height 60 at (250, 200). *)
Definition sofa : FurnitureItem :=
  mkItem 1 250 200 100 60 "#8B4513" "Sofa" (Some 0).

Definition table : FurnitureItem :=
  mkItem 2 0 150 80 80 "#A0522D" "Table" (Some 300).

Definition design : Viewer3D.Design :=
  Viewer3D.mkDesign "1" "Living Room" room [sofa; table].

(** A scene with an untagged root, the sofa's model (with a mesh below
    it) and the table's model. *)
Definition scene : Viewer3D.Object3D :=
  Viewer3D.Obj (Viewer3D.mkNode None 0 0 0 0)
    [ Viewer3D.Obj (Viewer3D.mkNode (Some 1%Z) 1 0 (6 # 10) 0)
        [ Viewer3D.Obj (Viewer3D.mkNode None 0 0 0 0) [] ];
      Viewer3D.Obj (Viewer3D.mkNode (Some 2%Z) (-(42 # 10)) 0 (-(2 # 10)) 0) [] ].

(** The same scene before the table's model arrived. *)
Definition scene_without_table : Viewer3D.Object3D :=
  Viewer3D.Obj (Viewer3D.mkNode None 0 0 0 0)
    [ Viewer3D.Obj (Viewer3D.mkNode (Some 1%Z) 1 0 (6 # 10) 0) [] ].

Definition viewer (sel : Z) (sc : Viewer3D.Object3D) : Viewer3D.State :=
  Viewer3D.mkState (Some sel) (Some design) (Some sc) [].

(** The editor on the same furniture, with the given selection. *)
Definition editor (sel : option Z) : Editor2D.State :=
  Editor2D.mkState room [sofa; table] sel ∅ [].

(** A new, empty design in the editor. *)
Definition empty_editor : Editor2D.State :=
  Editor2D.mkState room [] None ∅ [].

(** The two seeded designs, as stored. *)
Definition living_room : gmap string DesignService.json :=
  list_to_map
    [ ("id", DesignService.JStr "1");
      ("name", DesignService.JStr "Living Room");
      ("lastModified", DesignService.JStr "2023-05-10");
      ("thumbnail", DesignService.JStr "");
      ("userId", DesignService.JStr "test123");
      ("furniture", DesignService.JArr []) ].

Definition bedroom : gmap string DesignService.json :=
  list_to_map
    [ ("id", DesignService.JStr "2");
      ("name", DesignService.JStr "Bedroom");
      ("lastModified", DesignService.JStr "2023-05-15");
      ("thumbnail", DesignService.JStr "");
      ("userId", DesignService.JStr "test123");
      ("furniture", DesignService.JArr []) ].

Definition storage : DesignService.Storage :=
  DesignService.mkStorage (Some [living_room; bedroom]).

(** A partial design that renames the design and also carries an
    identity and an owner of its own. *)
Definition rename : gmap string DesignService.json :=
  list_to_map
    [ ("name", DesignService.JStr "Den");
      ("id", DesignService.JStr "9");
      ("userId", DesignService.JStr "someone") ].

(** Two sofas of the same fill and rotation at different places, and a
    table; nothing previewed yet. *)
Definition second_sofa : FurnitureItem :=
  mkItem 3 40 300 120 70 "#8B4513" "Sofa" None.

Definition showroom : Editor2D.State :=
  Editor2D.mkState room [sofa; table; second_sofa] None ∅ [].

Definition fresh_env : Editor2D.PreviewEnv := Editor2D.mkEnv ∅ [] [].

(** Whole degrees print in decimal. *)
Definition show_degrees (q : Q) : string := pretty (JS.trunc q).

(** A renderer without a WebGL context, and one that works. *)
Definition failing_render (n : nat) (name fill : string) (rotation : Q)
  : option string := None.

Definition working_render (n : nat) (name fill : string) (rotation : Q)
  : option string := Some ("data:image/png;base64," ++ name)%string.

(** A shape turned to -45 degrees with the transform handle. *)
Definition turned_node : Editor2D.KonvaNode :=
  Editor2D.mkKonva 250 200 100 60 1 1 (-45).

(** An editor that already holds the preview of the sofas. *)
Definition previewed : Editor2D.State :=
  Editor2D.mkState room [sofa; table; second_sofa] None
                   {["Sofa-#8B4513-0" := "data:image/png;base64,Sofa"]} [].

(** Scene graphs stand in as their file names; every file loads. *)
Definition load_all (n : nat) (path : string) : string + string := inl path.

(** A loader that finds no file. *)
Definition load_none (n : nat) (path : string) : string + string :=
  inr "404".

(** The text of a built-in function. *)
Definition source_text (member : string) : string :=
  ("function " ++ member ++ "() { [native code] }")%string.

(** Names stand in for scene graphs, so a clone is the same name. *)
Definition same_name (m : string) : string := m.

(** Two notifications on screen. *)
Definition shown : list NotificationContext.Notification :=
  [ NotificationContext.mkNotification 1700000000000 "Added new Sofa" "info" 3000;
    NotificationContext.mkNotification 1700000000500 "Design saved successfully!"
                                       "success" 3000 ].

Definition empty_cache : ModelService.CacheEnv string :=
  ModelService.mkCache string ∅ [] [].

(** The logged-in user, as parsed from [localStorage]. *)
Definition user : DesignService.json :=
  DesignService.JObj
    [ ("_id", DesignService.JStr "test123");
      ("email", DesignService.JStr "test@example.com") ].

(** 14.999999999999998, the double just below 15. *)
Definition just_under_15 : spec_float :=
  S754_finite false 8444249301319679 (-49).





(** What the editor submits for a new design. *)
Definition draft : gmap string DesignService.json :=
  list_to_map
    [ ("name", DesignService.JStr "New Design");
      ("furniture", DesignService.JArr []) ].

End Sample.

(** * Properties *)

(** ** JavaScript numbers *)

Section Numbers.

Lemma trunc_nonneg (q : Q) :
  0 <= q -> inject_Z (JS.trunc q) <= q /\ q < inject_Z (JS.trunc q) + 1.
Proof.
  intros Hq. unfold JS.trunc.
  assert (Hn : (0 <= Qnum q)%Z).
  { unfold Qle in Hq. simpl in Hq. lia. }
  rewrite Z.quot_div_nonneg by lia.
  replace (Qnum q / Z.pos (Qden q))%Z with (Qfloor q) by (destruct q; reflexivity).
  split; [apply Qfloor_le |].
  pose proof (Qlt_floor q) as H. rewrite inject_Z_plus in H. exact H.
Qed.


(** [a % 360] lies strictly between -360 and 360 and has the sign of
    [a]. *)
Lemma rem_360_nonneg (a : Q) :
  0 <= a -> 0 <= JS.rem a 360 /\ JS.rem a 360 < 360.
Proof.
  intros Ha. unfold JS.rem.
  destruct (trunc_nonneg (a / 360)) as [H1 H2].
  { apply Qle_shift_div_l; lra. }
  assert (E : a == 360 * (a / 360)) by (field).
  split; lra.
Qed.


Lemma ltb_lt (a b : Q) : JS.ltb a b = true <-> a < b.
Proof.
  unfold JS.ltb. rewrite Qlt_alt.
  destruct (a ?= b); split; congruence.
Qed.

Lemma ltb_ge (a b : Q) : JS.ltb a b = false <-> b <= a.
Proof.
  split; intros H.
  - apply Qnot_lt_le. intros Hlt. apply ltb_lt in Hlt. congruence.
  - destruct (JS.ltb a b) eqn:E; [| reflexivity].
    apply ltb_lt in E. lra.
Qed.


End Numbers.

(** ** Editor units to world units *)

Section Conversion.

Lemma worldX_spec (rc : RoomConfig) (ex w : Q) :
  Geometry.worldX rc ex w
  == Geometry.toWorld_spec 0.02 ex (room_width rc) w.
Proof.
  unfold Geometry.worldX, Geometry.roomWidth, Geometry.toWorld_spec,
    Geometry.scale.
  field.
Qed.

Lemma worldZ_spec (rc : RoomConfig) (ey h : Q) :
  Geometry.worldZ rc ey h
  == Geometry.toWorld_spec 0.02 ey (room_height rc) h.
Proof.
  unfold Geometry.worldZ, Geometry.roomDepth, Geometry.toWorld_spec,
    Geometry.scale.
  field.
Qed.

(** C1, as the code has it: both the initial placement and the
    move-driven repositioning compute
    [editor*0.02 - room*0.02/2 + size*0.02/2] on each axis; for x=250,
    y=200, an item of 100 by 60 and a room of 500 by 400 this is world
    X = 1 and world Z = 0.6. *)
Theorem toWorld_formula_and_baseline :
  (forall rc it,
      fst (Geometry.loadModel_position rc it)
      == Geometry.toWorld_spec 0.02 (item_x it) (room_width rc) (item_width it) /\
      snd (Geometry.loadModel_position rc it)
      == Geometry.toWorld_spec 0.02 (item_y it) (room_height rc) (item_height it)) /\
  (forall rc ex ey w h,
      Geometry.worldX rc ex w == Geometry.toWorld_spec 0.02 ex (room_width rc) w /\
      Geometry.worldZ rc ey h == Geometry.toWorld_spec 0.02 ey (room_height rc) h) /\
  fst (Geometry.loadModel_position Sample.room Sample.sofa) == 1 /\
  snd (Geometry.loadModel_position Sample.room Sample.sofa) == 0.6.
Proof.
  split; [| split; [| split]].
  - intros rc it. split; [apply worldX_spec | apply worldZ_spec].
  - intros rc ex ey w h. split; [apply worldX_spec | apply worldZ_spec].
  - vm_compute. reflexivity.
  - vm_compute. reflexivity.
Qed.

(** C1 as stated fails: at the baseline input the world X is not -2. *)
Lemma baseline_worldX_is_not_minus_2 :
  ~ fst (Geometry.loadModel_position Sample.room Sample.sofa) == -2.
Proof. vm_compute. discriminate. Qed.

End Conversion.

(** ** Clamped moves *)

Section Clamping.









(** Over exact numbers the clamp's terms and the item's bounds say the
    same. *)
Lemma within_walls_in_room (rc : RoomConfig) (item : FurnitureItem) :
  within_walls rc item <-> in_room rc item.
Proof.
  unfold within_walls, in_room.
  split; intros (H1 & H2 & H3 & H4); repeat split; lra.
Qed.

End Clamping.

(** ** The scene graph *)

Section Scene.
Import Viewer3D.

Lemma nodes_traverse (cb : NodeData -> NodeData) (o : Object3D) :
  nodes (traverse cb o) = map cb (nodes o).
Proof.
  induction o as [d cs IH] using Object3D_forall_ind. simpl. f_equal.
  induction IH as [| c cs' Hc _ IHcs]; simpl; [reflexivity |].
  rewrite map_app, Hc, IHcs. reflexivity.
Qed.

Lemma visits_nodes (p : NodeData -> bool) (o : Object3D) :
  visits p o = existsb p (nodes o).
Proof.
  induction o as [d cs IH] using Object3D_forall_ind. simpl. f_equal.
  induction IH as [| c cs' Hc _ IHcs]; simpl; [reflexivity |].
  rewrite existsb_app, Hc, IHcs. reflexivity.
Qed.









End Scene.

(** ** Furniture lists *)

Section Lists.

Lemma findIndex_id_lookup (id : Z) (l : list FurnitureItem) (i : nat) :
  findIndex_id id l = Some i ->
  exists it, l !! i = Some it /\ item_id it = id.
Proof.
  revert i. induction l as [| a l IH]; intros i; simpl; [discriminate |].
  destruct (item_id a =? id)%Z eqn:E.
  - intros [= <-]. exists a. split; [reflexivity | lia].
  - destruct (findIndex_id id l) as [j |]; simpl; [| discriminate].
    intros [= <-]. simpl. apply IH. reflexivity.
Qed.

Lemma findIndex_id_none (id : Z) (l : list FurnitureItem) :
  findIndex_id id l = None <-> ~ In id (ids l).
Proof.
  induction l as [| a l IH]; simpl; [tauto |].
  destruct (item_id a =? id)%Z eqn:E.
  - split; [discriminate |]. intros H. exfalso. apply H. left. lia.
  - destruct (findIndex_id id l); simpl.
    + split; [discriminate |]. intros H. exfalso.
      destruct IH as [_ IH]. assert (Some n = None); [| discriminate].
      apply IH. intros Hin. apply H. right. exact Hin.
    + split; [| reflexivity]. intros _ [H | H]; [lia |].
      destruct IH as [IH _]. apply IH; [reflexivity | exact H].
Qed.

Lemma find_id_none (id : Z) (l : list FurnitureItem) :
  find_id id l = None <-> ~ In id (ids l).
Proof.
  induction l as [| a l IH]; simpl; [tauto |].
  destruct (item_id a =? id)%Z eqn:E.
  - split; [discriminate |]. intros H. exfalso. apply H. left. lia.
  - rewrite IH. split; [intros H [H' | H']; [lia | auto] | auto].
Qed.

(** Filtering out an identity nobody carries returns the same list. *)
Lemma filter_absent_id (id : Z) (l : list FurnitureItem) :
  ~ In id (ids l) ->
  List.filter (fun item => negb (item_id item =? id)%Z) l = l.
Proof.
  induction l as [| a l IH]; simpl; [reflexivity |]. intros H.
  destruct (item_id a =? id)%Z eqn:E.
  - exfalso. apply H. left. lia.
  - simpl. f_equal. apply IH. intros Hin. apply H. right. exact Hin.
Qed.


Lemma find_id_map_selected (sel : Z) (f : FurnitureItem -> FurnitureItem)
      (l : list FurnitureItem) :
  (forall it, item_id (f it) = item_id it) ->
  find_id sel (map (fun it => if (item_id it =? sel)%Z then f it else it) l)
  = option_map f (find_id sel l).
Proof.
  intros Hf. induction l as [| a l IH]; simpl; [reflexivity |].
  destruct (item_id a =? sel)%Z eqn:E.
  - rewrite Hf, E. reflexivity.
  - rewrite E. exact IH.
Qed.

End Lists.

(** ** Move and rotate edits in the 3D viewer *)

Section ViewerEdits.
Import Viewer3D.

Variables (st : State) (sel : Z) (d : Design) (scene : Object3D)
          (idx : nat) (item : FurnitureItem).
Hypothesis Hsel : selectedModelId st = Some sel.
Hypothesis Hnz : sel <> 0%Z.
Hypothesis Hd : design st = Some d.
Hypothesis Hscene : sceneRef st = Some scene.
Hypothesis Hidx : findIndex_id sel (furniture d) = Some idx.
Hypothesis Hitem : furniture d !! idx = Some item.









End ViewerEdits.

Section ViewerClaims.
Import Viewer3D.



End ViewerClaims.

Section ViewerWitnesses.
Import Viewer3D.



(** The table's model is missing from the scene: the rotate edit is
    given up. *)
Example rotate_without_node_abandoned :
  abandoned 2 (Sample.viewer 2 Sample.scene_without_table)
            (rotateSelectedFurniture 15 (Sample.viewer 2 Sample.scene_without_table)).
Proof. repeat split. Qed.

End ViewerWitnesses.

(** ** Rotation updates *)

Section Rotation.



(** Remainders and wrapped sums differ from the sum by whole turns. *)
Lemma rem_congruent (a : Q) : exists k : Z, JS.rem a 360 == a + 360 * inject_Z k.
Proof.
  exists (- JS.trunc (a / 360))%Z. unfold JS.rem. rewrite inject_Z_opp. ring.
Qed.


(** Two rotations in [[0, 360)] that differ by whole turns are equal. *)
Lemma normalized_congruent_eq (a b : Q) (k : Z) :
  normalized a -> normalized b -> a == b + 360 * inject_Z k -> a == b.
Proof.
  intros [Ha0 Ha1] [Hb0 Hb1] E.
  assert (Hlo : inject_Z (-1) < inject_Z k) by (change (inject_Z (-1)) with (-1); lra).
  assert (Hhi : inject_Z k < inject_Z 1) by (change (inject_Z 1) with 1; lra).
  rewrite <- Zlt_Qlt in Hlo, Hhi.
  assert (k = 0%Z) by lia. subst k.
  rewrite E. change (inject_Z 0) with 0. ring.
Qed.

(** The residue of a whole number modulo 360, as a rotation. *)
Lemma mod_360_whole (w : Z) :
  normalized (inject_Z (w mod 360)) /\
  inject_Z (w mod 360) == inject_Z w - 360 * inject_Z (w / 360).
Proof.
  pose proof (Z.mod_pos_bound w 360 eq_refl) as [H0 H1].
  split.
  - split; [change 0 with (inject_Z 0); rewrite <- Zle_Qle; exact H0
           | change 360 with (inject_Z 360); rewrite <- Zlt_Qlt; exact H1].
  - rewrite (Z.div_mod w 360) at 2 by discriminate.
    rewrite inject_Z_plus, inject_Z_mult. change (inject_Z 360) with 360. ring.
Qed.


(** So is the step of the 2D editor, as long as the sum is not
    negative. *)
Lemma rem_whole (q : Q) (r s : Z) :
  q == inject_Z r -> (0 <= r + s)%Z ->
  JS.rem (q + inject_Z s) 360 == inject_Z ((r + s) mod 360).
Proof.
  intros Hq Hpos. destruct (rem_congruent (q + inject_Z s)) as [j Hj].
  destruct (mod_360_whole (r + s)) as [Hn He].
  apply (normalized_congruent_eq _ _ (j + (r + s) / 360)); [| exact Hn |].
  - apply rem_360_nonneg. rewrite Hq, <- inject_Z_plus.
    change 0 with (inject_Z 0). rewrite <- Zle_Qle. exact Hpos.
  - rewrite Hj, He, Hq, !inject_Z_plus. ring.
Qed.








(** On whole degrees from 0 to 360 the binary64 computation of the
    rotate steps gives the same whole number as the exact one. *)
Lemma whole_degrees_wrap_exactly (r k : Z) :
  (0 <= r <= 360)%Z -> k = 15%Z \/ k = (-15)%Z ->
  Viewer3D.wrapped_double (Double.of_Z r) (Double.of_Z k)
  = Double.of_Z ((r + k) mod 360).
Proof.
  intros Hr Hk.
  assert (Hall : forallb
            (fun n => let z := Z.of_nat n in
               bool_decide (Viewer3D.wrapped_double (Double.of_Z z) (Double.of_Z 15)
                            = Double.of_Z ((z + 15) mod 360)) &&
               bool_decide (Viewer3D.wrapped_double (Double.of_Z z) (Double.of_Z (-15))
                            = Double.of_Z ((z + -15) mod 360)))
            (seq 0 361) = true) by (vm_compute; reflexivity).
  rewrite forallb_forall in Hall.
  specialize (Hall (Z.to_nat r)). cbv zeta in Hall.
  rewrite Z2Nat.id in Hall by lia.
  apply andb_prop in Hall as [H1 H2]; [| apply in_seq; lia].
  apply bool_decide_eq_true in H1, H2.
  destruct Hk as [-> | ->]; assumption.
Qed.

Lemma whole_degrees_step_exactly (r s : Z) :
  (0 <= r <= 360)%Z -> s = 15%Z \/ s = 90%Z ->
  Editor2D.rotated_double (Double.of_Z r) (Double.of_Z s)
  = Double.of_Z ((r + s) mod 360).
Proof.
  intros Hr Hs.
  assert (Hall : forallb
            (fun n => let z := Z.of_nat n in
               bool_decide (Editor2D.rotated_double (Double.of_Z z) (Double.of_Z 15)
                            = Double.of_Z ((z + 15) mod 360)) &&
               bool_decide (Editor2D.rotated_double (Double.of_Z z) (Double.of_Z 90)
                            = Double.of_Z ((z + 90) mod 360)))
            (seq 0 361) = true) by (vm_compute; reflexivity).
  rewrite forallb_forall in Hall.
  specialize (Hall (Z.to_nat r)). cbv zeta in Hall.
  rewrite Z2Nat.id in Hall by lia.
  apply andb_prop in Hall as [H1 H2]; [| apply in_seq; lia].
  apply bool_decide_eq_true in H1, H2.
  destruct Hs as [-> | ->]; assumption.
Qed.

End Rotation.

Section RotationClaims.





(** Likewise for a shape turned to -45 degrees with the transform
    handle. *)
Example transform_commit_stored_unwrapped :
  ~ rotations_normalized
      (Editor2D.furniture
         (Editor2D.onTransformEnd 1 Sample.turned_node (Sample.editor (Some 1%Z)))).
Proof.
  intros H. inversion H as [| it l Hit _]; subst.
  destruct Hit as [Hge _]. vm_compute in Hge. apply Hge. reflexivity.
Qed.

(** And for the rotate step of the 3D viewer on a fractional rotation,
    in the arithmetic of the runtime: from 14.999999999999998 a step of
    -15 gives a tiny negative remainder, and adding 360 to it rounds to
    360 itself. *)
Example rotate_step_rounds_up_to_360 :
  Viewer3D.wrapped_double Sample.just_under_15 (Double.of_Z (-15))
  = Double.of_Z 360.
Proof. vm_compute. reflexivity. Qed.

(** The table stands at 300 degrees; the rotate button turns it to 30. *)
Example rotate_button_300_to_30 :
  exists it,
    Editor2D.furniture (Editor2D.rotateStep 90 (Sample.editor (Some 2%Z))) !! 1%nat
    = Some it /\
    JS.or_zero (item_rotation it) == 30.
Proof. eexists. split; [reflexivity |]. vm_compute. reflexivity. Qed.

End RotationClaims.

(** ** Item identities *)

Section Identities.

Lemma addFurniture_furniture (now : Z) (type : string) (st : Editor2D.State) :
  exists it,
    Editor2D.furniture (Editor2D.addFurniture now type st)
    = Editor2D.furniture st ++ [it] /\
    item_id it = now /\
    Editor2D.selectedId (Editor2D.addFurniture now type st) = Some now.
Proof. eexists. repeat split. Qed.

(** C5, as the code has it: the new item's identity is the clock
    reading at creation; the identities of the design stay pairwise
    distinct whenever that reading differs from every identity already
    present -- in particular when it is later than all of them. *)
Theorem addFurniture_fresh_when_clock_unused
        (now : Z) (type : string) (st : Editor2D.State) :
  NoDup (ids (Editor2D.furniture st)) ->
  (~ In now (ids (Editor2D.furniture st)) \/
   Forall (fun i => (i < now)%Z) (ids (Editor2D.furniture st))) ->
  NoDup (ids (Editor2D.furniture (Editor2D.addFurniture now type st))) /\
  ids (Editor2D.furniture (Editor2D.addFurniture now type st))
  = ids (Editor2D.furniture st) ++ [now].
Proof.
  intros Hnd Hfresh.
  assert (Hnotin : ~ In now (ids (Editor2D.furniture st))).
  { destruct Hfresh as [H | H]; [exact H |].
    intros Hin. rewrite List.Forall_forall in H. specialize (H _ Hin). lia. }
  destruct (addFurniture_furniture now type st) as (it & E & Hid & _).
  rewrite E. unfold ids. rewrite map_app. simpl. rewrite Hid.
  split; [| reflexivity].
  apply NoDup_app. split; [exact Hnd |]. split.
  - intros x Hx Hx'. apply list_elem_of_In in Hx.
    apply list_elem_of_In in Hx'. destruct Hx' as [<- | []].
    apply Hnotin, Hx.
  - apply NoDup_singleton.
Qed.

Lemma addFurniture_fresh_when_clock_unused_witness :
  NoDup (ids (Editor2D.furniture
                (Editor2D.addFurniture 1700000000001 "table"
                   (Editor2D.addFurniture 1700000000000 "sofa"
                                          Sample.empty_editor)))).
Proof.
  apply (addFurniture_fresh_when_clock_unused 1700000000001 "table"
           (Editor2D.addFurniture 1700000000000 "sofa" Sample.empty_editor)).
  - simpl. apply NoDup_singleton.
  - right. simpl. repeat constructor.
Defined.

(** C5 as stated fails: two items created under the same clock reading
    carry the same identity. *)
Lemma same_clock_reading_same_identity :
  ~ NoDup (ids (Editor2D.furniture
                  (Editor2D.addFurniture 1700000000000 "table"
                     (Editor2D.addFurniture 1700000000000 "sofa"
                                            Sample.empty_editor)))).
Proof.
  simpl. intros H. apply NoDup_cons in H as [H _].
  apply H. left.
Qed.

End Identities.

(** ** The persistence service *)

Section Persistence.
Import DesignService.

Lemma find_absent (id : string) (designs : list Design) :
  Forall (fun d => has_id id d = false) designs ->
  List.find (has_id id) designs = None.
Proof.
  induction 1 as [| d l Hd _ IH]; simpl; [reflexivity |].
  rewrite Hd. exact IH.
Qed.

Lemma findIndex_absent (id : string) (designs : list Design) :
  Forall (fun d => has_id id d = false) designs ->
  findIndex id designs = None.
Proof.
  induction 1 as [| d l Hd _ IH]; simpl; [reflexivity |].
  rewrite Hd, IH. reflexivity.
Qed.

Lemma findIndex_found (id : string) (designs : list Design) (i : nat) :
  findIndex id designs = Some i ->
  exists d, designs !! i = Some d /\ has_id id d = true /\
            Forall (fun d' => has_id id d' = false) (take i designs).
Proof.
  revert i. induction designs as [| a l IH]; intros i; simpl; [discriminate |].
  destruct (has_id id a) eqn:E.
  - intros [= <-]. exists a. repeat split; [exact E | constructor].
  - destruct (findIndex id l) as [j |]; simpl; [| discriminate].
    intros [= <-]. destruct (IH j eq_refl) as (d & H1 & H2 & H3).
    exists d. simpl. repeat split; try assumption.
    constructor; assumption.
Qed.

Lemma filter_absent (id : string) (designs : list Design) :
  Forall (fun d => has_id id d = false) designs ->
  List.filter (fun d => negb (has_id id d)) designs = designs.
Proof.
  induction 1 as [| d l Hd _ IH]; simpl; [reflexivity |].
  rewrite Hd. simpl. f_equal. exact IH.
Qed.

(** C7: for an id that no stored design carries, [getDesign] and
    [updateDesign] reject with "Design not found", and the storage after
    the failed update is the storage before. *)
Theorem unknown_id_not_found
        (id : string) (designData : Design) (now : string) (ls : Storage) :
  Forall (fun d => has_id id d = false) (getDesigns ls) ->
  getDesign id ls = Rejected not_found /\
  updateDesign id designData now ls = (ls, Rejected not_found).
Proof.
  intros H. unfold getDesign, updateDesign.
  rewrite (find_absent _ _ H), (findIndex_absent _ _ H). split; reflexivity.
Qed.

Lemma unknown_id_not_found_witness :
  getDesign "3" Sample.storage = Rejected not_found /\
  updateDesign "3" Sample.rename "2026-01-01T00:00:00.000Z" Sample.storage
  = (Sample.storage, Rejected not_found).
Proof.
  apply (unknown_id_not_found "3" Sample.rename "2026-01-01T00:00:00.000Z"
                              Sample.storage).
  repeat constructor.
Defined.

Lemma merged_lookup (stored designData : Design) (now : string) (k : string) :
  merged stored designData now !! k
  = if decide (k = "lastModified") then Some (JStr now)
    else match designData !! k with
         | Some v => Some v
         | None => stored !! k
         end.
Proof.
  unfold merged. destruct (decide (k = "lastModified")) as [-> | Hk].
  - apply lookup_insert_eq.
  - rewrite lookup_insert_ne by congruence.
    rewrite lookup_union. destruct (designData !! k), (stored !! k); reflexivity.
Qed.




(** The merge of the sample: the partial design's [id] and [userId]
    replace the stored ones. *)
Example merged_overrides_id_and_owner :
  let m := merged Sample.living_room Sample.rename "2026-01-01T00:00:00.000Z" in
  m !! "id" = Some (JStr "9") /\ m !! "userId" = Some (JStr "someone") /\
  m !! "name" = Some (JStr "Den") /\ m !! "thumbnail" = Some (JStr "") /\
  m !! "lastModified" = Some (JStr "2026-01-01T00:00:00.000Z").
Proof. repeat split. Qed.

(** Deleting a design nobody stores writes the same list back and
    resolves to [true]. *)
Lemma deleteDesign_absent (id : string) (ls : Storage) :
  Forall (fun d => has_id id d = false) (getDesigns ls) ->
  deleteDesign id ls = (mkStorage (Some (getDesigns ls)), Resolved true) /\
  getDesigns (fst (deleteDesign id ls)) = getDesigns ls.
Proof.
  intros H. unfold deleteDesign. rewrite (filter_absent _ _ H).
  split; reflexivity.
Qed.

End Persistence.

(** ** Deleting the selected item *)

Section Deletion.
Import Editor2D.

(** When an item carries the selected identity, [deleteSelected] removes
    it, clears the selection and returns. *)
Lemma deleteSelected_present (st : State) (sel : Z) (it : FurnitureItem) :
  selectedId st = Some sel -> sel <> 0%Z ->
  find_id sel (furniture st) = Some it ->
  snd (deleteSelected st) = Returned /\
  ~ In sel (ids (furniture (fst (deleteSelected st)))).
Proof.
  intros Hsel Hnz Hfind. unfold deleteSelected. rewrite Hsel.
  replace (JS.truthy_id (Some sel)) with true
    by (simpl; destruct (Z.eqb_spec sel 0); [contradiction | reflexivity]).
  simpl. rewrite Hfind. simpl. split; [reflexivity |].
  unfold ids. rewrite in_map_iff. intros (x & Hx & Hin).
  apply filter_In in Hin as [_ Hneg]. rewrite Hx, Z.eqb_refl in Hneg.
  discriminate.
Qed.

(** When no item carries the selected identity, the list written back
    has the same contents, the selection is cleared -- and the handler
    ends with a [TypeError]. *)
Lemma deleteSelected_absent (st : State) (sel : Z) :
  selectedId st = Some sel -> sel <> 0%Z ->
  ~ In sel (ids (furniture st)) ->
  furniture (fst (deleteSelected st)) = furniture st /\
  selectedId (fst (deleteSelected st)) = None /\
  snd (deleteSelected st) = Threw undefined_name.
Proof.
  intros Hsel Hnz Habs. unfold deleteSelected. rewrite Hsel.
  replace (JS.truthy_id (Some sel)) with true
    by (simpl; destruct (Z.eqb_spec sel 0); [contradiction | reflexivity]).
  simpl. rewrite (proj2 (find_id_none sel (furniture st)) Habs). simpl.
  rewrite (filter_absent_id _ _ Habs). repeat split.
Qed.

(** C8 at the failing input: with identity 7 selected and items 1 and 2
    in the list, [deleteSelected] leaves the list as it is and throws. *)
Theorem deleteSelected_stale_selection_throws :
  furniture (fst (deleteSelected (Sample.editor (Some 7%Z))))
  = furniture (Sample.editor (Some 7%Z)) /\
  snd (deleteSelected (Sample.editor (Some 7%Z))) = Threw undefined_name /\
  snd (handleKeyDown "Delete" (Sample.editor (Some 7%Z))) = Threw undefined_name.
Proof. repeat split. Qed.

End Deletion.

(** ** The furniture catalog *)

Section Catalog.
Import ModelService.

Lemma MODEL_MAP_keys name : ~ In name catalog_keys -> MODEL_MAP !! name = None.
Proof.
  intros H. unfold MODEL_MAP. simpl.
  rewrite !lookup_insert_ne by (intros <-; apply H; simpl; tauto).
  apply lookup_empty.
Qed.

Lemma MODEL_SCALES_keys name : ~ In name catalog_keys -> MODEL_SCALES !! name = None.
Proof.
  intros H. unfold MODEL_SCALES. simpl.
  rewrite !lookup_insert_ne by (intros <-; apply H; simpl; tauto).
  apply lookup_empty.
Qed.

Lemma MODEL_Y_POSITIONS_keys name :
  ~ In name catalog_keys -> MODEL_Y_POSITIONS !! name = None.
Proof.
  intros H. unfold MODEL_Y_POSITIONS. simpl.
  rewrite !lookup_insert_ne by (intros <-; apply H; simpl; tauto).
  apply lookup_empty.
Qed.

Lemma MODEL_ROTATIONS_keys name :
  ~ In name catalog_keys -> MODEL_ROTATIONS !! name = None.
Proof.
  intros H. unfold MODEL_ROTATIONS. simpl.
  rewrite !lookup_insert_ne by (intros <-; apply H; simpl; tauto).
  apply lookup_empty.
Qed.

Lemma TOP_DOWN_ADJUSTMENTS_keys name :
  ~ In name catalog_keys -> TOP_DOWN_ADJUSTMENTS !! name = None.
Proof.
  intros H. unfold TOP_DOWN_ADJUSTMENTS. simpl.
  rewrite !lookup_insert_ne by (intros <-; apply H; simpl; tauto).
  apply lookup_empty.
Qed.

(** A type name that is neither a key of the tables nor a member of
    [Object.prototype] gets the "default" entries. *)
Lemma plain_unknown_gets_default (name : string) :
  ~ In name catalog_keys -> ~ In name Object_prototype ->
  getModelPath name = Own "/models/cube.glb" /\
  getModelConfig name = default_config /\
  getTopDownViewSettings name = Own (mkTopDown 8 0 1.2).
Proof.
  intros Hk Hp.
  assert (Hproto : existsb (String.eqb name) Object_prototype = false).
  { destruct (existsb (String.eqb name) Object_prototype) eqn:E; [| reflexivity].
    apply existsb_exists in E as (m & Hin & Heq).
    apply String.eqb_eq in Heq. subst m. contradiction. }
  unfold getModelPath, getModelConfig, getTopDownViewSettings, get.
  rewrite (MODEL_MAP_keys _ Hk), (MODEL_SCALES_keys _ Hk),
    (MODEL_Y_POSITIONS_keys _ Hk), (MODEL_ROTATIONS_keys _ Hk),
    (TOP_DOWN_ADJUSTMENTS_keys _ Hk), Hproto.
  repeat split.
Qed.

(** No lookup comes back [undefined]. *)
Lemma lookup_defined (name : string) :
  getModelPath name <> Undefined /\
  scale (getModelConfig name) <> Undefined /\
  yPosition (getModelConfig name) <> Undefined /\
  rotation (getModelConfig name) <> Undefined /\
  getTopDownViewSettings name <> Undefined.
Proof.
  unfold getModelPath, getModelConfig, getTopDownViewSettings, or_else. simpl.
  repeat split;
    match goal with
    | |- context [get ?t name] =>
        destruct (get t name) as [v | m |]; try discriminate;
        match goal with
        | |- context [if ?b then _ else _] => destruct b; discriminate
        end
    end.
Qed.

(** C9 at the failing input: for the type name "constructor" the path
    lookup yields the member inherited from [Object.prototype], not the
    "default" path, and so do the configuration and the top-down
    settings. *)
Theorem inherited_name_bypasses_default :
  ~ In "constructor" catalog_keys /\
  get MODEL_MAP "default" = Own "/models/cube.glb" /\
  getModelPath "constructor" = Inherited "constructor" /\
  getModelConfig "constructor"
  = mkConfig (Inherited "constructor") (Inherited "constructor")
             (Inherited "constructor") /\
  getTopDownViewSettings "constructor" = Inherited "constructor".
Proof.
  split; [| repeat split].
  simpl. intros H. repeat destruct H as [H | H]; try discriminate H. exact H.
Qed.

(** The seeded "Coffee Table" is unknown to the catalog and gets the
    defaults. *)
Example coffee_table_gets_default :
  getModelPath "Coffee Table" = Own "/models/cube.glb" /\
  getModelConfig "Coffee Table" = default_config.
Proof. split; reflexivity. Qed.

End Catalog.

(** ** The preview cache *)

Section PreviewClaims.
Import Editor2D.

Variable numberToString : Q -> string.
Variable render : nat -> string -> string -> Q -> option string.

#[local] Abbreviation key := (itemKey numberToString).
#[local] Abbreviation step := (previewItem numberToString render).

Lemma cached_truthy m k v : cached m k = Some v -> JS.truthy_str v = true.
Proof.
  unfold cached. destruct (m !! k) as [w |]; [| discriminate].
  destruct (JS.truthy_str w) eqn:E; [| discriminate]. congruence.
Qed.

Lemma cached_insert_eq m k v :
  JS.truthy_str v = true -> cached (<[k := v]> m) k = Some v.
Proof. intros H. unfold cached. rewrite lookup_insert_eq, H. reflexivity. Qed.

Lemma cached_insert_ne m k k' v :
  k <> k' -> cached (<[k := v]> m) k' = cached m k'.
Proof. intros H. unfold cached. rewrite lookup_insert_ne by exact H. reflexivity. Qed.

Lemma occurrences_app k l1 l2 :
  occurrences k (l1 ++ l2) = (occurrences k l1 + occurrences k l2)%nat.
Proof. unfold occurrences. rewrite List.filter_app, length_app. reflexivity. Qed.

Lemma occurrences_one k x :
  occurrences k [x] = if String.eqb x k then 1%nat else 0%nat.
Proof.
  unfold occurrences. simpl. rewrite String.eqb_sym.
  destruct (String.eqb x k); reflexivity.
Qed.

(** Same type name, fill and rotation (a missing rotation counting as
    0): same key, whatever the identities and positions. *)
Lemma same_look_same_key (a b : FurnitureItem) :
  item_name a = item_name b -> item_fill a = item_fill b ->
  JS.or_zero (item_rotation a) = JS.or_zero (item_rotation b) ->
  key a = key b.
Proof. unfold itemKey. intros -> -> ->. reflexivity. Qed.

(** One iteration, seen from the key [k]. *)
Lemma previewItem_effect (p : Pass) (it : FurnitureItem) (k : string) :
  (key it = k ->
   forall n, exists url,
     render n (item_name it) (item_fill it) (JS.or_zero (item_rotation it))
     = Some url /\ JS.truthy_str url = true) ->
  exists c1 r1,
    calls (env (step p it)) = calls (env p) ++ c1 /\
    renders (env (step p it)) = renders (env p) ++ r1 /\
    (occurrences k r1 <= occurrences k c1)%nat /\
    match cached (newPreviews p) k with
    | Some _ =>
        occurrences k c1 = 0%nat /\ is_Some (cached (newPreviews (step p it)) k)
    | None =>
        if String.eqb (key it) k
        then occurrences k c1 = 1%nat /\
             is_Some (cached (newPreviews (step p it)) k)
        else occurrences k c1 = 0%nat /\
             cached (newPreviews (step p it)) k = None
    end.
Proof.
  intros Hok. unfold previewItem.
  destruct (cached (newPreviews p) (key it)) as [old |] eqn:Hc.
  { exists [], []. rewrite !app_nil_r. repeat split; [lia |].
    destruct (cached (newPreviews p) k) eqn:Hk; [split; [reflexivity | eauto] |].
    destruct (String.eqb_spec (key it) k) as [E | E]; [congruence |].
    split; reflexivity. }
  unfold createTopDownImage. fold (key it).
  change (cacheKey numberToString (item_name it) (item_fill it)
                   (JS.or_zero (item_rotation it))) with (key it).
  destruct (String.eqb_spec (key it) k) as [E | E].
  - (* the item has the key in question *)
    rewrite <- E in *. rewrite Hc.
    destruct (cached (topDownImageCache (env p)) (key it)) as [hit |] eqn:Hhit.
    + rewrite (cached_truthy _ _ _ Hhit). simpl.
      exists [key it], []. rewrite app_nil_r, occurrences_one, String.eqb_refl.
      repeat split; [unfold occurrences; simpl; lia |].
      rewrite cached_insert_eq by (eapply cached_truthy; eauto). eauto.
    + destruct (Hok eq_refl (length (renders (env p)))) as (url & Hr & Ht).
      rewrite Hr, Ht. simpl.
      exists [key it], [key it]. rewrite occurrences_one, String.eqb_refl.
      repeat split; [lia |].
      rewrite cached_insert_eq by exact Ht. eauto.
  - (* another key *)
    assert (Hfinal : forall c1 r1 np,
               (r1 = [] \/ r1 = [key it]) -> c1 = [key it] ->
               (np = newPreviews p \/ exists url, np = <[key it := url]> (newPreviews p)) ->
               (occurrences k r1 <= occurrences k c1)%nat /\
               match cached (newPreviews p) k with
               | Some _ => occurrences k c1 = 0%nat /\ is_Some (cached np k)
               | None => occurrences k c1 = 0%nat /\ cached np k = None
               end).
    { intros c1 r1 np Hr1 -> Hnp. rewrite occurrences_one.
      destruct (String.eqb_spec (key it) k) as [E' | _]; [contradiction |].
      assert (Hsame : cached np k = cached (newPreviews p) k).
      { destruct Hnp as [-> | [url ->]]; [reflexivity |].
        apply cached_insert_ne, E. }
      rewrite Hsame. split.
      - destruct Hr1 as [-> | ->]; [unfold occurrences; simpl; lia |].
        rewrite occurrences_one.
        destruct (String.eqb_spec (key it) k); [contradiction | lia].
      - destruct (cached (newPreviews p) k); [split; [reflexivity | eauto] |].
        split; reflexivity. }
    destruct (cached (topDownImageCache (env p)) (key it)) as [hit |] eqn:Hhit.
    + rewrite (cached_truthy _ _ _ Hhit). simpl.
      exists [key it], []. rewrite app_nil_r.
      split; [reflexivity |]. split; [reflexivity |].
      apply Hfinal; eauto.
    + destruct (render (length (renders (env p))) (item_name it) (item_fill it)
                       (JS.or_zero (item_rotation it))) as [url |].
      * destruct (JS.truthy_str url); simpl;
          exists [key it], [key it];
          (split; [reflexivity |]); (split; [reflexivity |]);
          apply Hfinal; eauto.
      * simpl. exists [key it], [key it].
        split; [reflexivity |]. split; [reflexivity |].
        apply Hfinal; eauto.
Qed.

(** One pass, seen from the key [k]. *)
Lemma pass_effect (k : string) (l : list FurnitureItem) :
  forall p, renders_well numberToString render k l ->
  exists nc nr,
    calls (env (fold_left step l p)) = calls (env p) ++ nc /\
    renders (env (fold_left step l p)) = renders (env p) ++ nr /\
    (occurrences k nr <= occurrences k nc)%nat /\
    occurrences k nc
    = match cached (newPreviews p) k with
      | Some _ => 0%nat
      | None =>
          if existsb (fun it => String.eqb (key it) k) l then 1%nat else 0%nat
      end.
Proof.
  induction l as [| it l IH]; intros p Hok; simpl.
  { exists [], []. rewrite !app_nil_r. repeat split; [lia |].
    destruct (cached (newPreviews p) k); reflexivity. }
  destruct (previewItem_effect p it k) as (c1 & r1 & Hc1 & Hr1 & Hle1 & Hcase).
  { intros E. apply Hok; [left; reflexivity | exact E]. }
  destruct (IH (step p it)) as (nc & nr & Hnc & Hnr & Hle & Hocc).
  { intros it' Hin. apply Hok. right. exact Hin. }
  exists (c1 ++ nc), (r1 ++ nr).
  rewrite Hnc, Hnr, Hc1, Hr1, !app_assoc, !occurrences_app.
  split; [reflexivity |]. split; [reflexivity |]. split; [lia |].
  rewrite Hocc.
  destruct (cached (newPreviews p) k) as [v |].
  - destruct Hcase as [-> [w ->]]. reflexivity.
  - destruct (String.eqb (key it) k); simpl.
    + destruct Hcase as [-> [w ->]]. reflexivity.
    + destruct Hcase as [-> ->]. reflexivity.
Qed.

(** C6, as the code has it: the key is made of type name, fill and
    rotation alone; and in one pass, for a key whose rendering succeeds,
    [createTopDownImage] is entered exactly once if some item has the
    key and no preview is held for it, not at all otherwise, and renders
    at most as often -- however many items share the key. *)
Theorem one_call_per_key_when_rendering_succeeds
        (st : State) (e : PreviewEnv) (k : string) :
  renders_well numberToString render k (furniture st) ->
  (forall a b : FurnitureItem,
      item_name a = item_name b -> item_fill a = item_fill b ->
      JS.or_zero (item_rotation a) = JS.or_zero (item_rotation b) ->
      key a = key b) /\
  exists nc nr,
    calls (snd (generatePreviews numberToString render st e)) = calls e ++ nc /\
    renders (snd (generatePreviews numberToString render st e)) = renders e ++ nr /\
    (occurrences k nr <= occurrences k nc)%nat /\
    occurrences k nc
    = match cached (modelPreviews st) k with
      | Some _ => 0%nat
      | None =>
          if existsb (fun it => String.eqb (key it) k) (furniture st)
          then 1%nat else 0%nat
      end.
Proof.
  intros Hok. split; [exact same_look_same_key |].
  unfold generatePreviews.
  destruct (furniture st) as [| it l] eqn:Hf.
  - exists [], []. simpl. rewrite !app_nil_r. repeat split; [lia |].
    destruct (cached (modelPreviews st) k); reflexivity.
  - exact (pass_effect k (it :: l) (mkPass (modelPreviews st) false e) Hok).
Qed.

End PreviewClaims.

Section PreviewExamples.
Import Editor2D.

(** In the sample with a working renderer the two sofas share one call
    and one render. *)
Lemma one_call_per_key_when_rendering_succeeds_witness :
  exists nc nr,
    calls (snd (generatePreviews Sample.show_degrees Sample.working_render
                                 Sample.showroom Sample.fresh_env))
    = calls Sample.fresh_env ++ nc /\
    renders (snd (generatePreviews Sample.show_degrees Sample.working_render
                                   Sample.showroom Sample.fresh_env))
    = renders Sample.fresh_env ++ nr /\
    (occurrences "Sofa-#8B4513-0" nr <= occurrences "Sofa-#8B4513-0" nc)%nat /\
    occurrences "Sofa-#8B4513-0" nc = 1%nat.
Proof.
  apply (one_call_per_key_when_rendering_succeeds
           Sample.show_degrees Sample.working_render
           Sample.showroom Sample.fresh_env "Sofa-#8B4513-0").
  intros it _ _ n. eexists. split; reflexivity.
Defined.

(** C6 as stated fails: when rendering fails, the pass enters
    [createTopDownImage] and renders once per item, twice for the key
    the two sofas share. *)
Lemma failed_render_repeats_per_item :
  itemKey Sample.show_degrees Sample.sofa
  = itemKey Sample.show_degrees Sample.second_sofa /\
  occurrences (itemKey Sample.show_degrees Sample.sofa)
    (calls (snd (generatePreviews Sample.show_degrees Sample.failing_render
                                  Sample.showroom Sample.fresh_env))) = 2%nat /\
  occurrences (itemKey Sample.show_degrees Sample.sofa)
    (renders (snd (generatePreviews Sample.show_degrees Sample.failing_render
                                    Sample.showroom Sample.fresh_env))) = 2%nat.
Proof. vm_compute. repeat split. Qed.

End PreviewExamples.

(** * Further properties *)

(** ** The persistence service, continued *)

Section PersistenceMore.
Import DesignService.

Lemma getDesigns_written (designs : list Design) :
  getDesigns (mkStorage (Some designs)) = designs.
Proof. reflexivity. Qed.

Lemma find_findIndex (id : string) (designs : list Design) (d : Design) :
  List.find (has_id id) designs = Some d <->
  exists i, findIndex id designs = Some i /\ designs !! i = Some d.
Proof.
  induction designs as [| a l IH]; simpl.
  - split; [discriminate | intros (i & H & _); discriminate].
  - destruct (has_id id a) eqn:E.
    + split.
      * intros [= ->]. exists O. split; reflexivity.
      * intros (i & [= <-] & H). exact H.
    + rewrite IH. split.
      * intros (i & Hi & Hd). exists (S i). rewrite Hi. split; [reflexivity | exact Hd].
      * intros (i & Hi & Hd). destruct (findIndex id l) as [j |]; [| discriminate].
        injection Hi as <-. exists j. split; [reflexivity | exact Hd].
Qed.

(** X1: [getDesign] resolves to exactly the design that [updateDesign] would
    replace: the one at the index [findIndex] returns. *)
Theorem getDesign_is_update_target (id : string) (ls : Storage) (d : Design) :
  getDesign id ls = Resolved d <->
  exists i, findIndex id (getDesigns ls) = Some i /\ getDesigns ls !! i = Some d.
Proof.
  unfold getDesign. rewrite <- find_findIndex.
  destruct (List.find (has_id id) (getDesigns ls)); split; congruence.
Qed.

Lemma find_insert_first (id : string) (designs : list Design) (i : nat) (u : Design) :
  Forall (fun d => has_id id d = false) (take i designs) ->
  (i < length designs)%nat -> has_id id u = true ->
  List.find (has_id id) (<[i := u]> designs) = Some u.
Proof.
  revert i. induction designs as [| a l IH]; intros i Hpre Hlen Hu; simpl in Hlen.
  - lia.
  - destruct i as [| i]; simpl.
    + rewrite Hu. reflexivity.
    + simpl in Hpre. apply Forall_cons in Hpre as [Ha Hpre]. rewrite Ha.
      apply IH; [exact Hpre | lia | exact Hu].
Qed.

Lemma merged_has_id (id : string) (stored designData : Design) (now : string) :
  has_id id stored = true ->
  designData !! "id" = None \/ designData !! "id" = Some (JStr id) ->
  has_id id (merged stored designData now) = true.
Proof.
  intros Hs Hp. unfold has_id in *. rewrite merged_lookup.
  rewrite decide_False by discriminate.
  destruct Hp as [-> | ->]; [exact Hs | apply String.eqb_refl].
Qed.

(** X2: Update then get: when the partial design leaves the identity alone
    (or repeats it), a successful [updateDesign] is followed by a
    [getDesign] that resolves to the very design the update returned. *)
Theorem update_then_get (id : string) (designData : Design) (now : string)
        (ls ls' : Storage) (updated : Design) :
  designData !! "id" = None \/ designData !! "id" = Some (JStr id) ->
  updateDesign id designData now ls = (ls', Resolved updated) ->
  getDesign id ls' = Resolved updated.
Proof.
  intros Hp. unfold updateDesign.
  destruct (findIndex id (getDesigns ls)) as [i |] eqn:Hi; [| discriminate].
  destruct (findIndex_found _ _ _ Hi) as (d & Hd & Hid & Hpre).
  rewrite Hd. intros [= <- <-]. unfold getDesign.
  change (getDesigns (mkStorage (Some (<[i := merged d designData now]> (getDesigns ls)))))
    with (<[i := merged d designData now]> (getDesigns ls)).
  rewrite (find_insert_first id (getDesigns ls) i (merged d designData now));
    [reflexivity | exact Hpre | eapply lookup_lt_Some; eauto |].
  apply merged_has_id; assumption.
Qed.

Lemma update_then_get_witness :
  getDesign "2" (fst (updateDesign "2" {["name" := JStr "Guest room"]}
                                   "2026-01-01T00:00:00.000Z" Sample.storage))
  = Resolved (merged Sample.bedroom {["name" := JStr "Guest room"]}
                     "2026-01-01T00:00:00.000Z").
Proof.
  apply (update_then_get "2" {["name" := JStr "Guest room"]}
           "2026-01-01T00:00:00.000Z" Sample.storage).
  - left. reflexivity.
  - reflexivity.
Defined.

Lemma filter_has_id_false (id : string) (designs : list Design) :
  Forall (fun d => has_id id d = false)
         (List.filter (fun d => negb (has_id id d)) designs).
Proof.
  apply List.Forall_forall. intros d Hd. apply filter_In in Hd as [_ H].
  destruct (has_id id d); [discriminate | reflexivity].
Qed.

(** X3: Delete then get: after [deleteDesign] no design answers to the id any
    more, whatever was stored: [getDesign] and [updateDesign] reject. *)
Theorem delete_then_not_found (id : string) (designData : Design) (now : string)
        (ls : Storage) :
  getDesign id (fst (deleteDesign id ls)) = Rejected not_found /\
  snd (updateDesign id designData now (fst (deleteDesign id ls)))
  = Rejected not_found.
Proof.
  unfold deleteDesign, getDesign, updateDesign. cbn [fst].
  rewrite !getDesigns_written.
  rewrite (find_absent _ _ (filter_has_id_false id (getDesigns ls))).
  rewrite (findIndex_absent _ _ (filter_has_id_false id (getDesigns ls))).
  split; reflexivity.
Qed.

Lemma has_id_unique (id id' : string) (d : Design) :
  id <> id' -> has_id id' d = true -> has_id id d = false.
Proof.
  unfold has_id. intros Hne.
  destruct (d !! "id") as [[| | | s | |] |]; try discriminate.
  intros H. apply String.eqb_eq in H. subst s.
  apply String.eqb_neq. congruence.
Qed.

(** X4: Deleting one id leaves the answers for every other id as they were. *)
Theorem delete_keeps_other_designs (id id' : string) (ls : Storage) :
  id <> id' ->
  getDesign id' (fst (deleteDesign id ls)) = getDesign id' ls.
Proof.
  intros Hne. unfold deleteDesign, getDesign. cbn [fst].
  rewrite getDesigns_written.
  induction (getDesigns ls) as [| a l IH]; simpl; [reflexivity |].
  destruct (has_id id' a) eqn:E'.
  - rewrite (has_id_unique id id' a Hne E'). simpl. rewrite E'. reflexivity.
  - destruct (has_id id a); simpl; [exact IH | rewrite E'; exact IH].
Qed.

Lemma delete_keeps_other_designs_witness :
  getDesign "2" (fst (deleteDesign "1" Sample.storage)) = Resolved Sample.bedroom.
Proof.
  rewrite (delete_keeps_other_designs "1" "2" Sample.storage); [reflexivity |].
  discriminate.
Defined.

End PersistenceMore.

Section Creation.
Import DesignService.

Lemma find_app_absent (id : string) (l : list Design) (d : Design) :
  Forall (fun x => has_id id x = false) l -> has_id id d = true ->
  List.find (has_id id) (l ++ [d]) = Some d.
Proof.
  induction 1 as [| a l Ha _ IH]; intros Hd; simpl.
  - rewrite Hd. reflexivity.
  - rewrite Ha. apply IH, Hd.
Qed.

Lemma find_app_present (id : string) (l k : list Design) (d : Design) :
  List.find (has_id id) l = Some d -> List.find (has_id id) (l ++ k) = Some d.
Proof.
  induction l as [| a l IH]; simpl; [discriminate |].
  destruct (has_id id a); [trivial | exact IH].
Qed.

Lemma created_lookup (designData : Design) (now : Z) (iso : string)
      (uid : option json) (k : string) :
  created designData now iso uid !! k
  = if decide (k = "userId") then uid
    else if decide (k = "lastModified") then Some (JStr iso)
    else match designData !! k with
         | Some v => Some v
         | None => if decide (k = "id") then Some (JStr (pretty now)) else None
         end.
Proof.
  unfold created.
  assert (Hst : forall k', k' <> "userId" ->
            (<["lastModified" := JStr iso]>
               (designData ∪ {["id" := JStr (pretty now)]}) : Design) !! k'
            = if decide (k' = "lastModified") then Some (JStr iso)
              else match designData !! k' with
                   | Some v => Some v
                   | None => if decide (k' = "id")
                             then Some (JStr (pretty now)) else None
                   end).
  { intros k' _. destruct (decide (k' = "lastModified")) as [-> | Hk].
    - apply lookup_insert_eq.
    - rewrite lookup_insert_ne by congruence. rewrite lookup_union.
      destruct (designData !! k') as [v |]; simpl.
      + destruct ({["id" := JStr (pretty now)]} !! k'); reflexivity.
      + destruct (decide (k' = "id")) as [-> | Hid].
        * rewrite lookup_singleton_eq. reflexivity.
        * rewrite lookup_singleton_ne by congruence. reflexivity. }
  destruct (decide (k = "userId")) as [-> | Hk].
  - destruct uid as [v |]; [apply lookup_insert_eq | apply lookup_delete_eq].
  - destruct uid as [v |].
    + rewrite lookup_insert_ne by congruence. apply Hst, Hk.
    + rewrite lookup_delete_ne by congruence. apply Hst, Hk.
Qed.

(** X5: What [createDesign] stamps: without a parsed user object it rejects
    and writes nothing; otherwise it appends one design whose
    [lastModified] and [userId] are the fresh ones whatever the submitted
    data says, whose [id] is the submitted one if there is one and the
    clock reading otherwise, and whose other fields are the submitted
    ones. *)
Theorem createDesign_stamps (designData : Design) (now : Z) (iso : string)
        (user : option json) (ls : Storage) :
  match user_id user with
  | Rejected e => createDesign designData now iso user ls = (ls, Rejected e)
  | Resolved uid =>
      exists newDesign,
        createDesign designData now iso user ls
        = (mkStorage (Some (getDesigns ls ++ [newDesign])), Resolved newDesign) /\
        newDesign !! "lastModified" = Some (JStr iso) /\
        newDesign !! "userId" = uid /\
        newDesign !! "id"
        = Some (default (JStr (pretty now)) (designData !! "id")) /\
        forall k, k <> "lastModified" -> k <> "userId" -> k <> "id" ->
                  newDesign !! k = designData !! k
  end.
Proof.
  unfold createDesign. destruct (user_id user) as [uid | e]; [| reflexivity].
  eexists. split; [reflexivity |].
  repeat split.
  - rewrite created_lookup. reflexivity.
  - rewrite created_lookup. reflexivity.
  - rewrite created_lookup. simpl.
    destruct (designData !! "id"); reflexivity.
  - intros k H1 H2 H3. rewrite created_lookup.
    rewrite !decide_False by assumption.
    destruct (designData !! k); reflexivity.
Qed.

(** X6: Create then get: a design created without an identity of its own is
    found again under the clock reading it was given, provided no stored
    design already carries that identity. *)
Theorem create_then_get (designData : Design) (now : Z) (iso : string)
        (user : option json) (ls ls' : Storage) (newDesign : Design) :
  designData !! "id" = None ->
  Forall (fun d => has_id (pretty now) d = false) (getDesigns ls) ->
  createDesign designData now iso user ls = (ls', Resolved newDesign) ->
  getDesign (pretty now) ls' = Resolved newDesign.
Proof.
  intros Hid Habs. unfold createDesign.
  destruct (user_id user) as [uid |]; [| discriminate].
  intros [= <- <-]. unfold getDesign. rewrite getDesigns_written.
  rewrite (find_app_absent _ _ _ Habs); [reflexivity |].
  unfold has_id. rewrite created_lookup. simpl. rewrite Hid.
  apply String.eqb_refl.
Qed.

(** X7: Creating a design does not change what [getDesign] resolves to for
    the designs stored before. *)
Theorem create_keeps_existing (designData : Design) (now : Z) (iso : string)
        (user : option json) (ls : Storage) (id : string) (d : Design) :
  getDesign id ls = Resolved d ->
  getDesign id (fst (createDesign designData now iso user ls)) = Resolved d.
Proof.
  unfold createDesign, getDesign.
  destruct (List.find (has_id id) (getDesigns ls)) as [d0 |] eqn:Hf; [| discriminate].
  intros [= ->].
  destruct (user_id user) as [uid |]; cbn [fst].
  - rewrite getDesigns_written, (find_app_present _ _ _ _ Hf). reflexivity.
  - rewrite Hf. reflexivity.
Qed.

End Creation.

Section CreationWitnesses.
Import DesignService.

Lemma create_then_get_witness :
  getDesign "1700000000000"
            (fst (createDesign Sample.draft 1700000000000 "2026-01-01T00:00:00.000Z"
                               (Some Sample.user) Sample.storage))
  = Resolved (created Sample.draft 1700000000000 "2026-01-01T00:00:00.000Z"
                      (Some (JStr "test123"))).
Proof.
  apply (create_then_get Sample.draft 1700000000000 "2026-01-01T00:00:00.000Z"
           (Some Sample.user) Sample.storage).
  - reflexivity.
  - repeat constructor.
  - reflexivity.
Defined.

Lemma create_keeps_existing_witness :
  getDesign "2"
            (fst (createDesign Sample.draft 1700000000000 "2026-01-01T00:00:00.000Z"
                               (Some Sample.user) Sample.storage))
  = Resolved Sample.bedroom.
Proof.
  apply (create_keeps_existing Sample.draft 1700000000000
           "2026-01-01T00:00:00.000Z" (Some Sample.user) Sample.storage "2").
  reflexivity.
Defined.

End CreationWitnesses.

(** ** The dashboard *)

Section DashboardList.
Import DesignService.

(** X8: A dashboard that shows the stored designs still shows exactly the
    stored designs after a delete, confirmed or not; and after a confirmed
    delete no shown design carries the id. *)
Theorem dashboard_delete_in_sync (confirmed : bool) (id : string)
        (designs : list Design) (ls : Storage) :
  designs = getDesigns ls ->
  fst (Dashboard.handleDelete confirmed id designs ls)
  = getDesigns (snd (Dashboard.handleDelete confirmed id designs ls)) /\
  (confirmed = true ->
   Forall (fun d => has_id id d = false)
          (fst (Dashboard.handleDelete confirmed id designs ls))).
Proof.
  intros ->. unfold Dashboard.handleDelete, deleteDesign.
  destruct confirmed; simpl.
  - split; [reflexivity |]. intros _. apply filter_has_id_false.
  - split; [reflexivity | discriminate].
Qed.

Lemma dashboard_delete_in_sync_witness :
  fst (Dashboard.handleDelete true "1" [Sample.living_room; Sample.bedroom]
                              Sample.storage)
  = getDesigns (snd (Dashboard.handleDelete true "1"
                       [Sample.living_room; Sample.bedroom] Sample.storage)).
Proof.
  apply (dashboard_delete_in_sync true "1" [Sample.living_room; Sample.bedroom]
                                  Sample.storage).
  reflexivity.
Defined.

End DashboardList.

(** ** The 2D editor, continued *)

Section EditorItems.
Import Editor2D.

(** Every type the palette can produce is at most 160 wide and 200 high. *)
Lemma lookupType_size (type : string) :
  0 < ft_width (lookupType type) /\ ft_width (lookupType type) <= 160 /\
  0 < ft_height (lookupType type) /\ ft_height (lookupType type) <= 200.
Proof.
  unfold lookupType, furnitureTypes, sofaType. cbn [List.find ft_type].
  repeat match goal with
         | |- context [String.eqb ?a type] => destruct (String.eqb a type)
         end;
    cbn [List.find ft_type ft_width ft_height hd]; repeat split; lra.
Qed.

Lemma addFurniture_in_room (now : Z) (type : string) (st : State) :
  160 <= room_width (roomConfig st) -> 200 <= room_height (roomConfig st) ->
  exists it,
    furniture (addFurniture now type st) = furniture st ++ [it] /\
    in_room (roomConfig (addFurniture now type st)) it.
Proof.
  intros Hw Hh. eexists. split; [reflexivity |].
  destruct (lookupType_size type) as (W0 & W1 & H0 & H1).
  unfold in_room, addFurniture, showInfo, setSelectedId, setFurniture.
  cbn [roomConfig item_x item_y item_width item_height].
  assert (Ew : room_width (roomConfig st)
               == room_width (roomConfig st) / 2 + room_width (roomConfig st) / 2)
    by field.
  assert (Eh : room_height (roomConfig st)
               == room_height (roomConfig st) / 2 + room_height (roomConfig st) / 2)
    by field.
  assert (Efw : ft_width (lookupType type)
                == ft_width (lookupType type) / 2 + ft_width (lookupType type) / 2)
    by field.
  assert (Efh : ft_height (lookupType type)
                == ft_height (lookupType type) / 2 + ft_height (lookupType type) / 2)
    by field.
  repeat split; lra.
Qed.

(** X10: In a room sized with the two sliders (width from 300, height from
    200), every item the palette adds lies within the room. *)
Theorem addFurniture_in_slider_room (w h now : Z) (type : string) (st : State) :
  width_slider_value w = true -> height_slider_value h = true ->
  exists it,
    furniture (addFurniture now type (onRoomHeightSlider h (onRoomWidthSlider w st)))
    = furniture st ++ [it] /\
    in_room (roomConfig (onRoomHeightSlider h (onRoomWidthSlider w st))) it.
Proof.
  intros Hw Hh.
  apply andb_prop in Hw as [Hw _]. apply andb_prop in Hh as [Hh _].
  apply Z.leb_le in Hw, Hh.
  assert (Hw' : 300 <= inject_Z w)
    by (change 300 with (inject_Z 300); rewrite <- Zle_Qle; exact Hw).
  assert (Hh' : 200 <= inject_Z h)
    by (change 200 with (inject_Z 200); rewrite <- Zle_Qle; exact Hh).
  destruct (addFurniture_in_room now type
              (onRoomHeightSlider h (onRoomWidthSlider w st)))
    as (it & E & Hin); simpl; [lra | lra |].
  exists it. split; [exact E | exact Hin].
Qed.

Lemma addFurniture_in_slider_room_witness :
  exists it,
    furniture (addFurniture 1700000000000 "bed"
                 (onRoomHeightSlider 200 (onRoomWidthSlider 300 Sample.empty_editor)))
    = furniture Sample.empty_editor ++ [it] /\
    in_room (roomConfig (onRoomHeightSlider 200
                           (onRoomWidthSlider 300 Sample.empty_editor))) it.
Proof.
  apply (addFurniture_in_slider_room 300 200 1700000000000 "bed"
                                     Sample.empty_editor); reflexivity.
Defined.

Lemma find_id_app_fresh (id : Z) (l : list FurnitureItem) (it : FurnitureItem) :
  ~ In id (ids l) -> item_id it = id -> find_id id (l ++ [it]) = Some it.
Proof.
  intros Habs Hid. induction l as [| a l IH]; simpl.
  - rewrite Hid, Z.eqb_refl. reflexivity.
  - destruct (Z.eqb_spec (item_id a) id) as [E | _].
    + exfalso. apply Habs. left. exact E.
    + apply IH. intros H. apply Habs. right. exact H.
Qed.

(** X11: Add then delete: deleting the item just added (it is the selection)
    gives back the furniture list of before, provided the clock reading
    it got as identity is not 0 and not the identity of an older item. *)
Theorem add_then_delete (now : Z) (type : string) (st : State) :
  now <> 0%Z -> ~ In now (ids (furniture st)) ->
  furniture (fst (deleteSelected (addFurniture now type st))) = furniture st /\
  selectedId (fst (deleteSelected (addFurniture now type st))) = None /\
  snd (deleteSelected (addFurniture now type st)) = Returned.
Proof.
  intros Hnz Habs. unfold deleteSelected.
  change (selectedId (addFurniture now type st)) with (Some now).
  replace (JS.truthy_id (Some now)) with true
    by (simpl; destruct (Z.eqb_spec now 0); [contradiction | reflexivity]).
  cbn [negb].
  destruct (addFurniture_furniture now type st) as (it & E & Hid & _).
  rewrite E, (find_id_app_fresh now _ it Habs Hid).
  cbn [fst snd]. unfold showInfo, setSelectedId, setFurniture. cbn [furniture selectedId].
  rewrite List.filter_app, (filter_absent_id _ _ Habs). simpl.
  rewrite Hid, Z.eqb_refl. simpl. rewrite app_nil_r.
  rewrite (proj2 (Z.eqb_neq now 0) Hnz). repeat split.
Qed.

Lemma add_then_delete_witness :
  furniture (fst (deleteSelected
                    (addFurniture 1700000000000 "plant" (Sample.editor (Some 1%Z)))))
  = furniture (Sample.editor (Some 1%Z)).
Proof.
  apply (add_then_delete 1700000000000 "plant" (Sample.editor (Some 1%Z))).
  - discriminate.
  - simpl. intros [H | [H | []]]; discriminate H.
Defined.

Lemma ids_map_same (f : FurnitureItem -> FurnitureItem) (l : list FurnitureItem) :
  (forall it, item_id (f it) = item_id it) -> ids (map f l) = ids l.
Proof.
  intros Hf. unfold ids. rewrite map_map. apply map_ext. exact Hf.
Qed.

(** X12: Recolouring, rotating, dragging and transforming never add, drop,
    reorder or renumber items: the identities of the furniture list are
    the same before and after. *)
Theorem edits_keep_identities (st : State) :
  (forall color, ids (furniture (updateFurnitureColor color st)) = ids (furniture st)) /\
  (forall degrees,
      ids (furniture (updateFurnitureRotation degrees st)) = ids (furniture st)) /\
  (forall step, ids (furniture (rotateStep step st)) = ids (furniture st)) /\
  (forall v, ids (furniture (onRotationSlider v st)) = ids (furniture st)) /\
  (forall id node, ids (furniture (onDragEnd id node st)) = ids (furniture st)) /\
  (forall id node, ids (furniture (onTransformEnd id node st)) = ids (furniture st)).
Proof.
  assert (Hrot : forall degrees,
             ids (furniture (updateFurnitureRotation degrees st)) = ids (furniture st)).
  { intros degrees. unfold updateFurnitureRotation.
    destruct (selectedId st) as [sel |]; [| reflexivity].
    destruct (negb (JS.truthy_id (Some sel))); [reflexivity |]. simpl.
    apply ids_map_same. intros it. destruct (item_id it =? sel)%Z; reflexivity. }
  split; [| split; [exact Hrot | split; [| split; [| split]]]].
  - intros color. unfold updateFurnitureColor.
    destruct (selectedId st) as [sel |]; [| reflexivity].
    destruct (negb (JS.truthy_id (Some sel))); [reflexivity |]. simpl.
    apply ids_map_same. intros it. destruct (item_id it =? sel)%Z; reflexivity.
  - intros step. apply Hrot.
  - intros v. apply Hrot.
  - intros id node. unfold onDragEnd. simpl.
    apply ids_map_same. intros it. destruct (item_id it =? id)%Z; reflexivity.
  - intros id node. unfold onTransformEnd. simpl.
    apply ids_map_same. intros it. destruct (item_id it =? id)%Z; reflexivity.
Qed.

(** X13: The transformer never ends up with a box under 20 in either
    direction once it has one of at least 20 by 20: a smaller proposal is
    turned down in favour of the old box. *)
Theorem boundBoxFunc_keeps_minimum (oldBox newBox : Box) :
  20 <= box_width oldBox -> 20 <= box_height oldBox ->
  20 <= box_width (boundBoxFunc oldBox newBox) /\
  20 <= box_height (boundBoxFunc oldBox newBox) /\
  (boundBoxFunc oldBox newBox = newBox \/
   boundBoxFunc oldBox newBox = oldBox /\
   (box_width newBox < 20 \/ box_height newBox < 20)).
Proof.
  intros Hw Hh. unfold boundBoxFunc.
  destruct (JS.ltb (box_width newBox) 20) eqn:Ew; simpl.
  - apply ltb_lt in Ew.
    split; [exact Hw | split; [exact Hh |]].
    right. split; [reflexivity | left; exact Ew].
  - destruct (JS.ltb (box_height newBox) 20) eqn:Eh.
    + apply ltb_lt in Eh.
      split; [exact Hw | split; [exact Hh |]].
      right. split; [reflexivity | right; exact Eh].
    + apply ltb_ge in Ew, Eh.
      split; [exact Ew | split; [exact Eh | left; reflexivity]].
Qed.

Lemma boundBoxFunc_keeps_minimum_witness :
  20 <= box_width (boundBoxFunc (mkBox 0 0 100 60 0) (mkBox 0 0 100 12 0)).
Proof.
  apply (boundBoxFunc_keeps_minimum (mkBox 0 0 100 60 0) (mkBox 0 0 100 12 0));
    simpl; lra.
Defined.

End EditorItems.

(** ** Rotation arithmetic *)

Section RotationAlgebra.

(** The editor's step, iterated on a whole rotation in [[0, 360)]. *)
Lemma editor_steps_whole (q : Q) (z k : Z) (n : nat) :
  q == inject_Z z -> (0 <= z < 360)%Z -> (0 <= k)%Z ->
  Nat.iter n (fun x => JS.rem (x + inject_Z k) 360) q
  == inject_Z ((z + Z.of_nat n * k) mod 360).
Proof.
  intros Hq Hz Hk. induction n as [| n IH].
  - simpl. rewrite Z.add_0_r, Z.mod_small by lia. exact Hq.
  - simpl Nat.iter.
    rewrite (rem_whole _ ((z + Z.of_nat n * k) mod 360) k IH).
    + rewrite Zplus_mod_idemp_l. apply inject_Z_injective. f_equal. lia.
    + pose proof (Z.mod_pos_bound (z + Z.of_nat n * k) 360 eq_refl). lia.
Qed.

End RotationAlgebra.

(** ** The 3D viewer, continued *)

Section ViewerSequences.
Import Viewer3D.


Lemma visits_traverse (sel : Z) (cb : NodeData -> NodeData) (o : Object3D) :
  (forall nd, tagged sel (cb nd) = tagged sel nd) ->
  visits (tagged sel) (traverse cb o) = visits (tagged sel) o.
Proof.
  intros Hcb. rewrite !visits_nodes, nodes_traverse.
  induction (nodes o) as [| nd l IH]; simpl; [reflexivity |].
  rewrite Hcb, IH. reflexivity.
Qed.

Variables (st : State) (sel : Z) (d : Design) (scene : Object3D)
          (idx : nat) (item : FurnitureItem).
Hypothesis Hsel : selectedModelId st = Some sel.
Hypothesis Hnz : sel <> 0%Z.
Hypothesis Hd : design st = Some d.
Hypothesis Hscene : sceneRef st = Some scene.
Hypothesis Hidx : findIndex_id sel (furniture d) = Some idx.
Hypothesis Hitem : furniture d !! idx = Some item.
Hypothesis Hfound : visits (tagged sel) scene = true.

(** The scene the second edit meets: the first edit went through
    [setDesign], so the scene was set up again in between. *)
Variable scene2 : Object3D.
Hypothesis Hfound2 : visits (tagged sel) scene2 = true.





End ViewerSequences.

Section ViewerMore.
Import Viewer3D.





End ViewerMore.

Section ViewerSlider.
Import Viewer3D.



Lemma ids_insert_same (l : list FurnitureItem) (idx : nat) (item item' : FurnitureItem) :
  l !! idx = Some item -> item_id item' = item_id item ->
  ids (<[idx := item']> l) = ids l.
Proof.
  intros Hl Hid. unfold ids. rewrite list_fmap_insert, Hid.
  apply list_insert_id. rewrite list_lookup_fmap, Hl. reflexivity.
Qed.

Lemma entry_changed_refl st : only_selected_entry_changed st st.
Proof.
  split; [reflexivity |]. destruct (design st); [| exact I]. repeat split. auto.
Qed.

Lemma entry_changed_insert st sel d idx item item' sc o :
  selectedModelId st = Some sel -> design st = Some d ->
  findIndex_id sel (furniture d) = Some idx -> furniture d !! idx = Some item ->
  item_id item' = item_id item ->
  only_selected_entry_changed st
    (mkState (Some sel)
             (Some (with_furniture d (<[idx := item']> (furniture d)))) sc o).
Proof.
  intros Hsel Hd Hidx Hitem Hid. split; [symmetry; exact Hsel |]. rewrite Hd. simpl.
  repeat split.
  - apply (ids_insert_same _ _ item); assumption.
  - intros j it Hj Hne. destruct (decide (j = idx)) as [-> | Hji].
    + exfalso. apply Hne. rewrite Hsel. f_equal.
      destruct (findIndex_id_lookup _ _ _ Hidx) as (it' & Hit' & Hid').
      congruence.
    + rewrite list_lookup_insert_ne by congruence. exact Hj.
Qed.

Lemma entry_changed_warn st sel d sc o :
  selectedModelId st = Some sel -> design st = Some d ->
  only_selected_entry_changed st (mkState (Some sel) (Some d) sc o).
Proof.
  intros Hsel Hd. split; [symmetry; exact Hsel |]. rewrite Hd. simpl.
  repeat split. auto.
Qed.

(** X18: The move, rotate and slider edits change at most the entry of the
    selected item: selection, room, name and identity of the design, the
    identities of the items and every item that is not the selection are
    the same afterwards. *)
Theorem viewer_edits_touch_only_selection (st : State) :
  (forall direction,
      only_selected_entry_changed st (moveSelectedFurniture direction st)) /\
  (forall degrees,
      only_selected_entry_changed st (rotateSelectedFurniture degrees st)) /\
  (forall v, only_selected_entry_changed st (updateFurnitureRotation v st)).
Proof.
  split; [| split]; intros arg;
    [unfold moveSelectedFurniture
    | unfold rotateSelectedFurniture
    | unfold updateFurnitureRotation];
    (destruct (selectedModelId st) as [sel |] eqn:Hsel;
       [| apply entry_changed_refl]);
    (destruct (design st) as [d |] eqn:Hd;
       [| apply entry_changed_refl]);
    (destruct (sceneRef st) as [scene |] eqn:Hsc;
       [| apply entry_changed_refl]);
    (destruct (negb (JS.truthy_id (Some sel))); [apply entry_changed_refl |]);
    (destruct (findIndex_id sel (furniture d)) as [idx |] eqn:Hidx;
       [| apply entry_changed_refl]);
    (destruct (furniture d !! idx) as [item |] eqn:Hitem;
       [| apply entry_changed_refl]);
    try destruct (stepped arg (roomConfig d) item) as [newX newY];
    cbv zeta;
    (destruct (negb (visits (tagged sel) scene));
       [apply entry_changed_warn; assumption |]);
    apply (entry_changed_insert st sel d idx item); auto.
Qed.

End ViewerSlider.

(** ** Full turns in the 2D editor *)

Section EditorTurns.
Import Editor2D.

Lemma selectedItem_rotateStep (s : Q) (st : State) (it : FurnitureItem) :
  selectedItem st = Some it ->
  selectedItem (rotateStep s st)
  = Some (with_rotation it (JS.rem (JS.or_zero (item_rotation it) + s) 360)).
Proof.
  intros Hit. unfold rotateStep. rewrite Hit.
  unfold selectedItem in Hit. unfold updateFurnitureRotation, selectedItem.
  destruct (selectedId st) as [sel |] eqn:Hsel; [| discriminate].
  destruct (JS.truthy_id (Some sel)) eqn:Ht; [| discriminate].
  cbn [negb setFurniture selectedId furniture]. rewrite Hsel, Ht.
  rewrite (find_id_map_selected sel
             (fun item => with_rotation item
                            (JS.rem (JS.or_zero (item_rotation it) + s) 360)))
    by reflexivity.
  rewrite Hit. reflexivity.
Qed.

Lemma selectedItem_steps (s : Q) (st : State) (it : FurnitureItem) (n : nat) :
  selectedItem st = Some it ->
  exists it',
    selectedItem (Nat.iter n (rotateStep s) st) = Some it' /\
    JS.or_zero (item_rotation it')
    = Nat.iter n (fun x => JS.rem (x + s) 360) (JS.or_zero (item_rotation it)) /\
    item_id it' = item_id it /\ item_x it' = item_x it /\ item_y it' = item_y it /\
    item_width it' = item_width it /\ item_height it' = item_height it /\
    item_fill it' = item_fill it /\ item_name it' = item_name it.
Proof.
  intros Hit. induction n as [| n (it' & Hsel & Hrot & Hrest)].
  - exists it. repeat split. exact Hit.
  - eexists. split; [simpl; apply selectedItem_rotateStep, Hsel |].
    split; [simpl; rewrite Hrot; reflexivity |]. exact Hrest.
Qed.

(** X14: Rotate steps in the editor on whole degrees.  When the selected
    item stores the whole number z in [[0, 360)], j steps of k leave it
    with (z + j * k) mod 360 and change nothing else about it; so steps
    that add up to whole turns -- the R key 24 times, the rotate button
    4 times -- bring it back to the rotation it had. *)
Theorem editor_full_turn (z k : Z) (n : nat) (m : Z) (st : State)
        (it : FurnitureItem) :
  selectedItem st = Some it ->
  whole (JS.or_zero (item_rotation it)) z -> (0 <= z < 360)%Z ->
  (0 <= k <= 2 ^ 52)%Z -> (Z.of_nat n * k = 360 * m)%Z ->
  (forall j : nat, exists it',
      selectedItem (Nat.iter j (rotateStep (inject_Z k)) st) = Some it' /\
      JS.or_zero (item_rotation it') == inject_Z ((z + Z.of_nat j * k) mod 360) /\
      item_id it' = item_id it /\ item_x it' = item_x it /\ item_y it' = item_y it /\
      item_width it' = item_width it /\ item_height it' = item_height it /\
      item_fill it' = item_fill it /\ item_name it' = item_name it) /\
  exists it',
    selectedItem (Nat.iter n (rotateStep (inject_Z k)) st) = Some it' /\
    JS.or_zero (item_rotation it') == JS.or_zero (item_rotation it).
Proof.
  intros Hit [Hz _] Hrange Hk Hturn.
  assert (Hsteps : forall j : nat, exists it',
      selectedItem (Nat.iter j (rotateStep (inject_Z k)) st) = Some it' /\
      JS.or_zero (item_rotation it') == inject_Z ((z + Z.of_nat j * k) mod 360) /\
      item_id it' = item_id it /\ item_x it' = item_x it /\ item_y it' = item_y it /\
      item_width it' = item_width it /\ item_height it' = item_height it /\
      item_fill it' = item_fill it /\ item_name it' = item_name it).
  { intros j.
    destruct (selectedItem_steps (inject_Z k) st it j Hit)
      as (it' & Hsel & Hrot & Hrest).
    exists it'. split; [exact Hsel |]. split; [| exact Hrest].
    rewrite Hrot. apply editor_steps_whole; [exact Hz | exact Hrange | lia]. }
  split; [exact Hsteps |].
  destruct (Hsteps n) as (it' & Hsel & Hrot & _).
  exists it'. split; [exact Hsel |].
  rewrite Hrot, Hz, Hturn. apply inject_Z_injective.
  rewrite Z.mul_comm, Z_mod_plus_full. apply Z.mod_small. exact Hrange.
Qed.

Lemma editor_full_turn_witness :
  exists it',
    selectedItem (Nat.iter 24 (rotateStep 15) (Sample.editor (Some 2%Z))) = Some it' /\
    JS.or_zero (item_rotation it') == JS.or_zero (item_rotation Sample.table).
Proof.
  apply (editor_full_turn 300 15 24 1 (Sample.editor (Some 2%Z)) Sample.table).
  - reflexivity.
  - split; [reflexivity | vm_compute; discriminate].
  - split; [vm_compute; discriminate | reflexivity].
  - split; vm_compute; discriminate.
  - reflexivity.
Defined.

End EditorTurns.

(** ** The preview pass, continued *)

Section PreviewMore.
Import Editor2D.

Variable numberToString : Q -> string.
Variable render : nat -> string -> string -> Q -> option string.

#[local] Abbreviation key' := (itemKey numberToString).
#[local] Abbreviation step' := (previewItem numberToString render).
#[local] Abbreviation create := (createTopDownImage numberToString render).
#[local] Abbreviation pass := (generatePreviews numberToString render).

Lemma cached_insert_cases m k k' v w :
  cached (<[k := v]> m) k' = Some w ->
  (k' = k /\ w = v) \/ cached m k' = Some w.
Proof.
  destruct (String.eqb_spec k k') as [<- | Hne].
  - unfold cached at 1. rewrite lookup_insert_eq.
    destruct (JS.truthy_str v); [| discriminate]. intros [= <-]. left. split; reflexivity.
  - rewrite cached_insert_ne by exact Hne. auto.
Qed.

(** What one iteration can do to the previews: nothing, or add the
    item's key, which had no preview. *)
Lemma previewItem_previews (p : Pass) (it : FurnitureItem) :
  (newPreviews (step' p it) = newPreviews p /\
   updatedPreviews (step' p it) = updatedPreviews p) \/
  (exists url, cached (newPreviews p) (key' it) = None /\
               JS.truthy_str url = true /\
               newPreviews (step' p it) = <[key' it := url]> (newPreviews p) /\
               updatedPreviews (step' p it) = true /\
               (cached (topDownImageCache (env p)) (key' it) = Some url \/
                exists n, render n (item_name it) (item_fill it)
                                 (JS.or_zero (item_rotation it)) = Some url)).
Proof.
  unfold previewItem.
  destruct (cached (newPreviews p) (key' it)) as [old |] eqn:Hc; [left; split; reflexivity |].
  unfold createTopDownImage.
  change (cacheKey numberToString (item_name it) (item_fill it)
                   (JS.or_zero (item_rotation it))) with (key' it).
  destruct (cached (topDownImageCache (env p)) (key' it)) as [hit |] eqn:Hhit.
  - rewrite (cached_truthy _ _ _ Hhit). right. exists hit.
    repeat split; [eapply cached_truthy; eauto | left; reflexivity].
  - destruct (render (length (renders (env p))) (item_name it) (item_fill it)
                     (JS.or_zero (item_rotation it))) as [url |] eqn:Hr;
      [| left; split; reflexivity].
    destruct (JS.truthy_str url) eqn:Ht; [| left; split; reflexivity].
    right. exists url. repeat split; [exact Ht | right; eauto].
Qed.

Lemma previewItem_keeps (p : Pass) (it : FurnitureItem) (k v : string) :
  cached (newPreviews p) k = Some v -> cached (newPreviews (step' p it)) k = Some v.
Proof.
  intros Hk.
  destruct (previewItem_previews p it) as [[-> _] | (url & Hc & _ & -> & _)];
    [exact Hk |].
  rewrite cached_insert_ne; [exact Hk |]. intros E. rewrite E in Hc. congruence.
Qed.

Lemma fold_keeps (l : list FurnitureItem) (p : Pass) (k v : string) :
  cached (newPreviews p) k = Some v ->
  cached (newPreviews (fold_left step' l p)) k = Some v.
Proof.
  revert p. induction l as [| it l IH]; intros p Hk; simpl; [exact Hk |].
  apply IH, previewItem_keeps, Hk.
Qed.

Lemma fold_flag (l : list FurnitureItem) (p : Pass) :
  updatedPreviews (fold_left step' l p) = true \/
  (newPreviews (fold_left step' l p) = newPreviews p /\
   updatedPreviews (fold_left step' l p) = updatedPreviews p).
Proof.
  revert p. induction l as [| it l IH]; intros p; simpl; [right; split; reflexivity |].
  destruct (IH (step' p it)) as [H | [H1 H2]]; [left; exact H |].
  destruct (previewItem_previews p it) as [[E1 E2] | (url & _ & _ & _ & E & _)].
  - right. split; congruence.
  - left. congruence.
Qed.

(** The previews the editor holds after a pass are those of the loop's
    last state. *)
Lemma pass_previews (st : State) (e : PreviewEnv) :
  modelPreviews (fst (pass st e))
  = newPreviews (fold_left step' (furniture st) (mkPass (modelPreviews st) false e)).
Proof.
  unfold generatePreviews. destruct (furniture st) as [| it l]; [reflexivity |].
  cbn [fst].
  destruct (fold_flag (it :: l) (mkPass (modelPreviews st) false e)) as [H | [H1 H2]].
  - rewrite H. reflexivity.
  - rewrite H2, H1. reflexivity.
Qed.

(** X21: A pass only ever adds previews: every preview held before is held,
    unchanged, after; and furniture, selection, room and notifications
    are untouched. *)
Theorem pass_keeps_previews (st : State) (e : PreviewEnv) (k v : string) :
  cached (modelPreviews st) k = Some v ->
  cached (modelPreviews (fst (pass st e))) k = Some v /\
  furniture (fst (pass st e)) = furniture st /\
  selectedId (fst (pass st e)) = selectedId st /\
  roomConfig (fst (pass st e)) = roomConfig st /\
  notifications (fst (pass st e)) = notifications st.
Proof.
  intros Hk. split.
  - rewrite pass_previews. apply fold_keeps. exact Hk.
  - unfold generatePreviews. destruct (furniture st) as [| it l] eqn:Hf.
    + cbn [fst]. rewrite ?Hf. repeat split.
    + cbn [fst]. destruct (updatedPreviews _);
        cbn [setModelPreviews furniture selectedId roomConfig notifications];
        rewrite ?Hf; repeat split.
Qed.

Lemma fold_complete (l : list FurnitureItem) (p : Pass) :
  (forall it, In it l -> renders_well numberToString render (key' it) [it]) ->
  forall it, In it l ->
             is_Some (cached (newPreviews (fold_left step' l p)) (key' it)).
Proof.
  revert p. induction l as [| a l IH]; intros p Hok it Hin; [destruct Hin |].
  simpl. destruct Hin as [<- | Hin].
  - destruct (previewItem_effect numberToString render p a (key' a))
      as (c1 & r1 & _ & _ & _ & Hcase).
    { intros _. apply (Hok a); [left; reflexivity | left; reflexivity | reflexivity]. }
    assert (Hs : is_Some (cached (newPreviews (step' p a)) (key' a))).
    { destruct (cached (newPreviews p) (key' a)); [apply Hcase |].
      rewrite String.eqb_refl in Hcase. apply Hcase. }
    destruct Hs as [v Hv]. exists v. apply fold_keeps, Hv.
  - apply IH; [| exact Hin]. intros it' Hin'. apply Hok. right. exact Hin'.
Qed.

(** X22: When rendering succeeds for every item, a pass leaves no item
    without a preview. *)
Theorem pass_completes_previews (st : State) (e : PreviewEnv) :
  (forall it, In it (furniture st) ->
              forall n, exists url,
                render n (item_name it) (item_fill it)
                       (JS.or_zero (item_rotation it)) = Some url /\
                JS.truthy_str url = true) ->
  forall it, In it (furniture st) ->
             is_Some (cached (modelPreviews (fst (pass st e))) (key' it)).
Proof.
  intros Hok it Hin. rewrite pass_previews. apply fold_complete; [| exact Hin].
  intros it' Hin' x [<- | []] _. apply Hok, Hin'.
Qed.

(** X23: Cache round trip: once [createTopDownImage] has returned a non-empty
    image, the next call for the same name, colour and rotation returns
    the same image without rendering and without changing the cache. *)
Theorem createTopDownImage_round_trip (e e1 : PreviewEnv) (name color : string)
        (rotation : Q) (url : string) :
  create e name color rotation = (e1, Some url) ->
  JS.truthy_str url = true ->
  create e1 name color rotation
  = (mkEnv (topDownImageCache e1)
           (calls e1 ++ [cacheKey numberToString name color rotation])
           (renders e1),
     Some url).
Proof.
  unfold createTopDownImage. intros H Ht.
  destruct (cached (topDownImageCache e) (cacheKey numberToString name color rotation))
    as [hit |] eqn:Hhit.
  - injection H as <- <-. simpl. rewrite Hhit. reflexivity.
  - destruct (render (length (renders e)) name color rotation) as [dataURL |];
      [| discriminate].
    injection H as <- <-. rewrite Ht. simpl.
    rewrite cached_insert_eq by exact Ht. reflexivity.
Qed.

Lemma fold_failing (l : list FurnitureItem) (p : Pass) :
  (forall n name fill rotation, render n name fill rotation = None) ->
  topDownImageCache (env (fold_left step' l p)) = topDownImageCache (env p) /\
  forall k v, cached (newPreviews (fold_left step' l p)) k = Some v ->
              cached (newPreviews p) k = Some v \/
              cached (topDownImageCache (env p)) k = Some v.
Proof.
  intros Hfail. revert p. induction l as [| it l IH]; intros p; simpl.
  { split; [reflexivity | auto]. }
  destruct (IH (step' p it)) as [Hcache Hprev].
  assert (Hstep : topDownImageCache (env (step' p it)) = topDownImageCache (env p)).
  { unfold previewItem.
    destruct (cached (newPreviews p) (key' it)); [reflexivity |].
    unfold createTopDownImage.
    destruct (cached (topDownImageCache (env p)) _) as [hit |] eqn:Hhit.
    - rewrite (cached_truthy _ _ _ Hhit). reflexivity.
    - rewrite Hfail. reflexivity. }
  split; [congruence |].
  intros k v Hk. destruct (Hprev k v Hk) as [H | H].
  - destruct (previewItem_previews p it)
      as [[E _] | (url & _ & _ & E & _ & [Hc | [n Hn]])].
    + left. congruence.
    + rewrite E in H. apply cached_insert_cases in H as [[-> ->] | H]; auto.
    + rewrite Hfail in Hn. discriminate.
  - right. congruence.
Qed.

(** X24: Failed renders poison nothing: when every render fails, a pass
    leaves the image cache as it was, and every preview held afterwards
    was held before or comes from the image cache. *)
Theorem failing_pass_changes_nothing (st : State) (e : PreviewEnv) :
  (forall n name fill rotation, render n name fill rotation = None) ->
  topDownImageCache (snd (pass st e)) = topDownImageCache e /\
  forall k v, cached (modelPreviews (fst (pass st e))) k = Some v ->
              cached (modelPreviews st) k = Some v \/
              cached (topDownImageCache e) k = Some v.
Proof.
  intros Hfail.
  destruct (fold_failing (furniture st) (mkPass (modelPreviews st) false e) Hfail)
    as [Hcache Hprev].
  split.
  - unfold generatePreviews. destruct (furniture st); [reflexivity | exact Hcache].
  - intros k v. rewrite pass_previews. apply Hprev.
Qed.

End PreviewMore.

Section PreviewWitnesses.
Import Editor2D.

Lemma pass_keeps_previews_witness :
  cached (modelPreviews (fst (generatePreviews Sample.show_degrees Sample.failing_render
                                               Sample.previewed Sample.fresh_env)))
         "Sofa-#8B4513-0"
  = Some "data:image/png;base64,Sofa".
Proof.
  apply (pass_keeps_previews Sample.show_degrees Sample.failing_render
           Sample.previewed Sample.fresh_env
           "Sofa-#8B4513-0" "data:image/png;base64,Sofa").
  reflexivity.
Defined.

Lemma pass_completes_previews_witness :
  is_Some (cached (modelPreviews
                     (fst (generatePreviews Sample.show_degrees Sample.working_render
                                            Sample.showroom Sample.fresh_env)))
                  (itemKey Sample.show_degrees Sample.table)).
Proof.
  apply (pass_completes_previews Sample.show_degrees Sample.working_render
           Sample.showroom Sample.fresh_env).
  - intros it _ n. eexists. split; reflexivity.
  - simpl. right. left. reflexivity.
Defined.

Lemma createTopDownImage_round_trip_witness :
  let e1 := fst (createTopDownImage Sample.show_degrees Sample.working_render
                                    Sample.fresh_env "Sofa" "#8B4513" 0) in
  createTopDownImage Sample.show_degrees Sample.working_render e1 "Sofa" "#8B4513" 0
  = (mkEnv (topDownImageCache e1)
           (calls e1 ++ [cacheKey Sample.show_degrees "Sofa" "#8B4513" 0])
           (renders e1),
     Some "data:image/png;base64,Sofa").
Proof.
  apply (createTopDownImage_round_trip Sample.show_degrees Sample.working_render
           Sample.fresh_env _ "Sofa" "#8B4513" 0 "data:image/png;base64,Sofa");
    reflexivity.
Defined.

Lemma failing_pass_changes_nothing_witness :
  topDownImageCache (snd (generatePreviews Sample.show_degrees Sample.failing_render
                                           Sample.showroom Sample.fresh_env))
  = topDownImageCache Sample.fresh_env.
Proof.
  apply (failing_pass_changes_nothing Sample.show_degrees Sample.failing_render
           Sample.showroom Sample.fresh_env).
  reflexivity.
Defined.

End PreviewWitnesses.

(** ** The model cache *)

Section ModelCacheProps.
Import ModelService.

Variable Model : Type.
Variable clone : Model -> Model.
Variable loadGLTF : nat -> string -> Model + string.
Variable sourceText : string -> string.

#[local] Abbreviation loadPath := (loadModelPath Model clone loadGLTF).
#[local] Abbreviation load := (loadModel Model clone loadGLTF sourceText).
#[local] Abbreviation preloadStep := (preloadPath Model loadGLTF).
#[local] Abbreviation preload := (preloadModels Model loadGLTF).
#[local] Abbreviation Env := (CacheEnv Model).
#[local] Abbreviation uncached := (ModelService.uncached Model).
#[local] Abbreviation grows := (ModelService.grows Model).

Lemma get_insert_eq (c : gmap string Model) (k : string) (m : Model) :
  get (<[k := m]> c) k = Own m.
Proof. unfold get. rewrite lookup_insert_eq. reflexivity. Qed.

Lemma get_insert_ne (c : gmap string Model) (k k' : string) (m : Model) :
  k <> k' -> get (<[k := m]> c) k' = get c k'.
Proof. intros H. unfold get. rewrite lookup_insert_ne by exact H. reflexivity. Qed.

Lemma get_undefined (c : gmap string Model) (k : string) :
  get c k = Undefined -> c !! k = None.
Proof. unfold get. destruct (c !! k); [discriminate | reflexivity]. Qed.

Lemma loadModelPath_round_trip (path : string) (env env1 : Env) (m : Model) :
  loadPath path env = (env1, Returns m) ->
  exists cachedModel,
    modelCache Model env1 !! path = Some cachedModel /\
    loadPath path env1 = (env1, Returns (clone cachedModel)).
Proof.
  unfold loadModelPath.
  destruct (get (modelCache Model env) path) as [c | member |] eqn:Hget.
  - intros [= <- _]. exists c. rewrite Hget. split; [| reflexivity].
    unfold get in Hget. destruct (modelCache Model env !! path); [congruence |].
    destruct (existsb _ _); discriminate.
  - discriminate.
  - destruct (loadGLTF (length (loads Model env)) path) as [model | error];
      [| discriminate].
    intros [= <- _]. exists (clone model). cbn [modelCache].
    rewrite get_insert_eq, lookup_insert_eq. split; reflexivity.
Qed.

(** X25: Model cache round trip: once [loadModel] has returned a model for a
    type, every later [loadModel] for a type with the same model path is
    served from the cache -- no load is started and the cache is not
    changed. *)
Theorem loadModel_round_trip (type1 type2 : string) (env env1 : Env) (m : Model) :
  getModelPath type1 = getModelPath type2 ->
  load type1 env = (env1, Returns m) ->
  exists cachedModel,
    load type2 env1 = (env1, Returns (clone cachedModel)).
Proof.
  unfold loadModel. intros <- H.
  destruct (loadModelPath_round_trip _ _ _ _ H) as (c & _ & Hc). eauto.
Qed.

(** X26: A load that ends in an error caches nothing; when it was the loader
    that failed, the error is on the console and the next call for the
    type starts a load again. *)
Theorem failed_load_caches_nothing (type : string) (env env1 : Env) (error : string) :
  load type env = (env1, Throws error) ->
  modelCache Model env1 = modelCache Model env /\
  (get (modelCache Model env) (pathKey sourceText (getModelPath type)) = Undefined ->
   loads Model env1 = loads Model env ++ [pathKey sourceText (getModelPath type)] /\
   console Model env1 = console Model env ++ [error] /\
   loads Model (fst (load type env1))
   = loads Model env1 ++ [pathKey sourceText (getModelPath type)]).
Proof.
  unfold loadModel, loadModelPath.
  destruct (get (modelCache Model env) (pathKey sourceText (getModelPath type)))
    as [c | member |] eqn:Hget.
  - discriminate.
  - intros [= <- _]. split; [reflexivity | discriminate].
  - destruct (loadGLTF (length (loads Model env)) _) as [model | err]; [discriminate |].
    intros [= <- <-]. split; [reflexivity |]. intros _. cbn [modelCache loads console].
    rewrite Hget. split; [reflexivity |]. split; [reflexivity |].
    destruct (loadGLTF _ _); reflexivity.
Qed.

Lemma MODEL_MAP_values (k p : string) :
  MODEL_MAP !! k = Some p -> In p modelPaths.
Proof.
  unfold MODEL_MAP. intros H. apply elem_of_list_to_map_2 in H.
  repeat (apply elem_of_cons in H as [H | H];
          [injection H as _ ->; simpl; tauto |]).
  apply elem_of_nil in H. destruct H.
Qed.

Lemma path_in_modelPaths (type p : string) :
  getModelPath type = Own p -> In p modelPaths.
Proof.
  unfold getModelPath, or_else, get.
  destruct (MODEL_MAP !! type) as [s |] eqn:E.
  - destruct (JS.truthy_str s).
    + intros [= <-]. eapply MODEL_MAP_values; eauto.
    + intros H. apply (MODEL_MAP_values "default"). simpl in H.
      injection H as <-. reflexivity.
  - destruct (existsb (String.eqb type) Object_prototype); [discriminate |].
    intros H. apply (MODEL_MAP_values "default"). simpl in H.
    injection H as <-. reflexivity.
Qed.

Lemma modelPaths_plain :
  Forall (fun p => existsb (String.eqb p) Object_prototype = false) modelPaths.
Proof. repeat constructor. Qed.

Lemma uncached_grows (c c' : gmap string Model) (x : string) :
  grows c c' -> uncached c' x = true -> uncached c x = true.
Proof.
  unfold ModelService.uncached, get. intros Hg.
  destruct (c !! x) as [m |] eqn:E.
  - rewrite (Hg _ _ E). discriminate.
  - destruct (c' !! x); [discriminate | trivial].
Qed.

Lemma filter_uncached_grows (c c' : gmap string Model) (l : list string) :
  grows c c' ->
  (length (List.filter (uncached c') l) <= length (List.filter (uncached c) l))%nat.
Proof.
  intros Hg. induction l as [| x l IH]; simpl; [lia |].
  destruct (uncached c' x) eqn:E.
  - rewrite (uncached_grows _ _ _ Hg E). simpl. lia.
  - destruct (uncached c x); simpl; lia.
Qed.

(** One iteration of the preload loop. *)
Lemma preloadPath_cases (total : nat) (cb : bool) (p : Preload Model) (x : string) :
  (uncached (modelCache Model (pre_env Model p)) x = false /\
   preloadStep total cb p x = p) \/
  (uncached (modelCache Model (pre_env Model p)) x = true /\
   exists scene,
     preloadStep total cb p x
     = mkPreload Model
         (mkCache Model (<[x := scene]> (modelCache Model (pre_env Model p)))
                  (loads Model (pre_env Model p) ++ [x])
                  (console Model (pre_env Model p)))
         (S (loaded Model p))
         (if cb then progress Model p ++ [(S (loaded Model p), total)]
          else progress Model p)) \/
  (uncached (modelCache Model (pre_env Model p)) x = true /\
   (exists n error, loadGLTF n x = inr error) /\
   exists error,
     preloadStep total cb p x
     = mkPreload Model
         (mkCache Model (modelCache Model (pre_env Model p))
                  (loads Model (pre_env Model p) ++ [x])
                  (console Model (pre_env Model p) ++ [error]))
         (loaded Model p) (progress Model p)).
Proof.
  unfold preloadPath, ModelService.uncached.
  destruct (get (modelCache Model (pre_env Model p)) x) as [c | member |];
    [left; split; reflexivity | left; split; reflexivity |].
  destruct (loadGLTF (length (loads Model (pre_env Model p))) x) as [scene | error] eqn:E.
  - right. left. split; [reflexivity |]. exists scene. reflexivity.
  - right. right. split; [reflexivity |]. split; [eauto |]. exists error. reflexivity.
Qed.

Lemma preload_fold (total : nat) (cb : bool) (l : list string) :
  forall p : Preload Model,
    let p' := fold_left (preloadStep total cb) l p in
    grows (modelCache Model (pre_env Model p)) (modelCache Model (pre_env Model p')) /\
    (exists n calls',
        loaded Model p' = (loaded Model p + n)%nat /\
        loads Model (pre_env Model p') = loads Model (pre_env Model p) ++ calls' /\
        (n <= length calls')%nat /\
        (length calls'
         <= length (List.filter (uncached (modelCache Model (pre_env Model p))) l))%nat /\
        progress Model p'
        = progress Model p
          ++ (if cb then map (fun i => (i, total)) (seq (S (loaded Model p)) n)
              else [])) /\
    ((forall n x, exists m, loadGLTF n x = inl m) ->
     forall x, In x l ->
               uncached (modelCache Model (pre_env Model p')) x = false).
Proof.
  induction l as [| x l IH]; intros p; cbv zeta.
  { split; [intros k m H; exact H |]. split.
    - exists O, []. rewrite Nat.add_0_r, !app_nil_r. simpl.
      destruct cb; rewrite ?app_nil_r; repeat split; lia.
    - intros _ x []. }
  simpl fold_left.
  destruct (IH (preloadStep total cb p x)) as (Hg & (n & calls' & Hn & Hl & Hle & Hf & Hp) & Hall).
  destruct (preloadPath_cases total cb p x)
    as [[Hu E] | [(Hu & scene & E) | (Hu & Hfail & error & E)]];
    rewrite E in *; cbn [pre_env modelCache loads loaded progress] in *.
  - split; [exact Hg |]. split.
    + exists n, calls'. simpl. rewrite Hu. repeat split; assumption.
    + intros Hok y [<- | Hy]; [| apply Hall; assumption].
      match goal with
      | |- ?u = false => destruct u eqn:Hx; [| reflexivity]
      end.
      rewrite (uncached_grows _ _ _ Hg Hx) in Hu. discriminate.
  - assert (Hins : grows (modelCache Model (pre_env Model p))
                         (<[x := scene]> (modelCache Model (pre_env Model p)))).
    { intros k m Hk. destruct (decide (x = k)) as [<- | Hne].
      - unfold ModelService.uncached in Hu.
        destruct (get (modelCache Model (pre_env Model p)) x) eqn:Hget;
          try discriminate.
        apply get_undefined in Hget. congruence.
      - rewrite lookup_insert_ne by exact Hne. exact Hk. }
    split; [intros k m Hk; apply Hg, Hins, Hk |]. split.
    + exists (S n), (x :: calls'). simpl. rewrite Hu. simpl.
      split; [lia |]. split; [rewrite Hl, <- app_assoc; reflexivity |].
      split; [lia |]. split.
      * pose proof (filter_uncached_grows _ _ l Hins). lia.
      * rewrite Hp. destruct cb; [| reflexivity].
        rewrite <- app_assoc. reflexivity.
    + intros Hok y [<- | Hy]; [| apply Hall; assumption].
      match goal with
      | |- ?u = false => destruct u eqn:Hx; [| reflexivity]
      end.
      apply (uncached_grows _ _ _ Hg) in Hx. unfold ModelService.uncached in Hx.
      rewrite get_insert_eq in Hx. discriminate.
  - split; [exact Hg |]. split.
    + exists n, (x :: calls'). simpl. rewrite Hu. simpl.
      split; [exact Hn |]. split; [rewrite Hl, <- app_assoc; reflexivity |].
      split; [lia |]. split; [lia | exact Hp].
    + intros Hok. destruct Hfail as (k & err & Hk).
      destruct (Hok k x) as [m Hm]. congruence.
Qed.

Lemma preload_all_cached (cb : bool) (env : Env) :
  (forall n x, exists m, loadGLTF n x = inl m) ->
  forall x, In x modelPaths ->
            uncached (modelCache Model (pre_env Model (preload cb env))) x = false.
Proof.
  intros Hok.
  exact (proj2 (proj2 (preload_fold (length modelPaths) cb modelPaths
                                    (mkPreload Model env O []))) Hok).
Qed.

Lemma cached_plain_is_own (c : gmap string Model) (path : string) :
  existsb (String.eqb path) Object_prototype = false ->
  uncached c path = false -> exists m, get c path = Own m.
Proof.
  unfold ModelService.uncached, get. intros Hplain.
  destruct (c !! path) as [m |]; [eauto |]. rewrite Hplain. discriminate.
Qed.

(** X27: After a preload in which every file loads, [loadModel] is served
    from the cache for every type name that resolves to a model path: it
    returns a model, starts no load, and leaves the cache alone. *)
Theorem preload_then_load (cb : bool) (env : Env) (type path : string) :
  (forall n x, exists m, loadGLTF n x = inl m) ->
  getModelPath type = Own path ->
  exists m,
    load type (pre_env Model (preload cb env))
    = (pre_env Model (preload cb env), Returns m).
Proof.
  intros Hok Hpath.
  pose proof (path_in_modelPaths _ _ Hpath) as Hin.
  pose proof (preload_all_cached cb env Hok path Hin) as Hc.
  pose proof modelPaths_plain as Hplain. rewrite List.Forall_forall in Hplain.
  destruct (cached_plain_is_own _ path (Hplain path Hin) Hc) as [m Hm].
  exists (clone m). unfold loadModel. rewrite Hpath.
  unfold pathKey, loadModelPath. rewrite Hm. reflexivity.
Qed.

Lemma modelPaths_distinct : List.NoDup modelPaths.
Proof.
  unfold modelPaths.
  repeat (constructor; [cbn [In]; intuition discriminate |]). constructor.
Qed.

(** A step for one path leaves the cache status of every other path
    alone. *)
Lemma preloadPath_other (total : nat) (cb : bool) (p : Preload Model)
      (x y : string) :
  x <> y ->
  uncached (modelCache Model (pre_env Model (preloadStep total cb p x))) y
  = uncached (modelCache Model (pre_env Model p)) y.
Proof.
  intros Hne.
  destruct (preloadPath_cases total cb p x)
    as [[_ E] | [(_ & scene & E) | (_ & _ & error & E)]];
    rewrite E; cbn [pre_env modelCache]; [reflexivity | | reflexivity].
  unfold ModelService.uncached. rewrite get_insert_ne by exact Hne. reflexivity.
Qed.

Lemma preload_untouched (total : nat) (cb : bool) (l : list string) (y : string) :
  ~ In y l ->
  forall p : Preload Model,
    uncached (modelCache Model (pre_env Model (fold_left (preloadStep total cb) l p))) y
    = uncached (modelCache Model (pre_env Model p)) y.
Proof.
  induction l as [| x l IH]; intros Hnin p; [reflexivity |].
  simpl fold_left. rewrite IH by (intros H; apply Hnin; right; exact H).
  apply preloadPath_other. intros ->. apply Hnin. left. reflexivity.
Qed.

Lemma filter_and_length {A : Type} (f g : A -> bool) (l : list A) :
  (length (List.filter (fun x => f x && g x) l) <= length (List.filter f l))%nat.
Proof.
  induction l as [| x l IH]; simpl; [lia |].
  destruct (f x), (g x); simpl; lia.
Qed.

(** The loop over paths that are all different: a load is started for
    exactly the paths without a cache entry, in order; the counter goes
    up by the number of those that are cached afterwards, each failed
    load puts one error on the console, and the callback sees the
    counter after every increment. *)
Lemma preload_fold_exact (total : nat) (cb : bool) (l : list string) :
  List.NoDup l ->
  forall p : Preload Model,
    let p' := fold_left (preloadStep total cb) l p in
    let c := modelCache Model (pre_env Model p) in
    let c' := modelCache Model (pre_env Model p') in
    let n := length (List.filter (fun x => uncached c x && negb (uncached c' x)) l) in
    loads Model (pre_env Model p')
    = loads Model (pre_env Model p) ++ List.filter (uncached c) l /\
    loaded Model p' = (loaded Model p + n)%nat /\
    (length (console Model (pre_env Model p')) + n
     = length (console Model (pre_env Model p)) + length (List.filter (uncached c) l))%nat /\
    progress Model p'
    = progress Model p
      ++ (if cb then map (fun i => (i, total)) (seq (S (loaded Model p)) n) else []).
Proof.
  induction l as [| x l IH]; intros Hnd p; cbv zeta.
  { simpl. rewrite Nat.add_0_r, !app_nil_r.
    destruct cb; rewrite ?app_nil_r; repeat split; reflexivity. }
  apply List.NoDup_cons_iff in Hnd as [Hx Hnd].
  simpl fold_left.
  specialize (IH Hnd (preloadStep total cb p x)). cbv zeta in IH.
  destruct IH as (Hl & Hn & Hc & Hp).
  set (p1 := preloadStep total cb p x) in *.
  set (p' := fold_left (preloadStep total cb) l p1) in *.
  assert (Hsame : forall y, In y l ->
            uncached (modelCache Model (pre_env Model p1)) y
            = uncached (modelCache Model (pre_env Model p)) y).
  { intros y Hy. apply preloadPath_other. intros ->. contradiction. }
  assert (Hf1 : List.filter (uncached (modelCache Model (pre_env Model p1))) l
                = List.filter (uncached (modelCache Model (pre_env Model p))) l).
  { apply List.filter_ext_in. exact Hsame. }
  assert (Hf2 : List.filter
                  (fun y => uncached (modelCache Model (pre_env Model p1)) y
                            && negb (uncached (modelCache Model (pre_env Model p')) y)) l
                = List.filter
                  (fun y => uncached (modelCache Model (pre_env Model p)) y
                            && negb (uncached (modelCache Model (pre_env Model p')) y)) l).
  { apply List.filter_ext_in. intros y Hy. rewrite (Hsame y Hy). reflexivity. }
  rewrite Hf1 in Hl, Hc. rewrite Hf2 in Hn, Hc, Hp.
  assert (Hx' : uncached (modelCache Model (pre_env Model p')) x
                = uncached (modelCache Model (pre_env Model p1)) x)
    by (apply preload_untouched; exact Hx).
  cbn [List.filter]. rewrite Hx'.
  subst p1.
  destruct (preloadPath_cases total cb p x)
    as [[Hu E] | [(Hu & scene & E) | (Hu & _ & error & E)]];
    rewrite E in *; cbn [pre_env modelCache loads loaded progress console] in *;
    rewrite Hu.
  - cbn [andb]. repeat split; assumption.
  - assert (Hins : uncached (<[x := scene]> (modelCache Model (pre_env Model p))) x
                   = false)
      by (unfold ModelService.uncached; rewrite get_insert_eq; reflexivity).
    rewrite Hins. cbn [negb andb length].
    split; [rewrite Hl, <- app_assoc; reflexivity |].
    split; [lia |]. split; [lia |].
    rewrite Hp. destruct cb; [| reflexivity].
    rewrite <- app_assoc. reflexivity.
  - cbn [negb andb length].
    split; [rewrite Hl, <- app_assoc; reflexivity |].
    split; [exact Hn |]. split; [rewrite length_app in Hc; simpl in Hc; lia |].
    exact Hp.
Qed.

(** X28: What the preload does and reports: a load is started for exactly
    the paths without a cache entry, in the order of the table; the
    counter ends at the number of paths that were not cached before and
    are cached afterwards; every other load that was started left one
    error on the console; and the progress callback is called with
    (1, 7), (2, 7), ... up to the counter -- so it stops short of 7 of 7
    whenever a path was cached beforehand. *)
Theorem preload_progress (cb : bool) (env : Env) :
  let p := preload cb env in
  let newly x :=
    uncached (modelCache Model env) x
    && negb (uncached (modelCache Model (pre_env Model p)) x) in
  loads Model (pre_env Model p)
  = loads Model env ++ List.filter (uncached (modelCache Model env)) modelPaths /\
  loaded Model p = length (List.filter newly modelPaths) /\
  (length (console Model (pre_env Model p)) + loaded Model p
   = length (console Model env)
     + length (List.filter (uncached (modelCache Model env)) modelPaths))%nat /\
  progress Model p
  = (if cb then map (fun i => (i, 7%nat)) (seq 1 (loaded Model p)) else []) /\
  ((exists x, In x modelPaths /\ uncached (modelCache Model env) x = false) ->
   (loaded Model p < 7)%nat).
Proof.
  cbv zeta. unfold preloadModels.
  destruct (preload_fold_exact (length modelPaths) cb modelPaths modelPaths_distinct
                               (mkPreload Model env O []))
    as (Hl & Hn & Hc & Hp).
  cbn [pre_env loaded progress] in Hl, Hn, Hc, Hp.
  rewrite Nat.add_0_l in Hn.
  split; [exact Hl |]. split; [exact Hn |].
  split; [rewrite Hn; exact Hc |].
  split; [rewrite Hn; exact Hp |].
  intros (x & Hin & Hx). rewrite Hn.
  pose proof (filter_and_length
                (uncached (modelCache Model env))
                (fun y => negb (uncached
                   (modelCache Model
                      (pre_env Model
                         (fold_left (preloadStep (length modelPaths) cb) modelPaths
                                    (mkPreload Model env 0 []))))
                   y)) modelPaths) as Hle.
  assert (length (List.filter (uncached (modelCache Model env)) modelPaths) < 7)%nat;
    [| lia].
  change 7%nat with (length modelPaths).
  clear - Hin Hx. induction modelPaths as [| y l IH]; [destruct Hin |].
  simpl. destruct Hin as [-> | Hin].
  - rewrite Hx. pose proof (List.filter_length_le (uncached (modelCache Model env)) l).
    lia.
  - specialize (IH Hin). destruct (uncached _ y); simpl; lia.
Qed.

End ModelCacheProps.

Section ModelCacheWitnesses.
Import ModelService.

Lemma loadModel_round_trip_witness :
  exists cachedModel,
    loadModel string Sample.same_name Sample.load_all Sample.source_text "Nightstand"
      (fst (loadModel string Sample.same_name Sample.load_all Sample.source_text
                      "Coffee Table" Sample.empty_cache))
    = (fst (loadModel string Sample.same_name Sample.load_all Sample.source_text
                      "Coffee Table" Sample.empty_cache),
       Returns (Sample.same_name cachedModel)).
Proof.
  apply (loadModel_round_trip string Sample.same_name Sample.load_all
           Sample.source_text "Coffee Table" "Nightstand" Sample.empty_cache _
           "/models/cube.glb"); reflexivity.
Defined.

Lemma failed_load_caches_nothing_witness :
  modelCache string
    (fst (loadModel string Sample.same_name Sample.load_none Sample.source_text
                    "Sofa" Sample.empty_cache))
  = modelCache string Sample.empty_cache.
Proof.
  apply (failed_load_caches_nothing string Sample.same_name Sample.load_none
           Sample.source_text "Sofa" Sample.empty_cache _ "404").
  reflexivity.
Defined.

Lemma preload_then_load_witness :
  exists m,
    loadModel string Sample.same_name Sample.load_all Sample.source_text "Bed"
      (pre_env string (preloadModels string Sample.load_all true Sample.empty_cache))
    = (pre_env string (preloadModels string Sample.load_all true Sample.empty_cache),
       Returns m).
Proof.
  apply (preload_then_load string Sample.same_name Sample.load_all Sample.source_text
           true Sample.empty_cache "Bed" "/models/bed-2.glb").
  - intros n x. eexists. reflexivity.
  - reflexivity.
Defined.

End ModelCacheWitnesses.

(** ** Notifications *)

Section Notifications.
Import NotificationContext.

Lemma remove_absent (i : Z) (l : list Notification) :
  ~ In i (map id l) -> removeNotification i l = l.
Proof.
  unfold removeNotification. induction l as [| a l IH]; simpl; [reflexivity |].
  intros H. destruct (Z.eqb_spec (id a) i) as [E | _].
  - exfalso. apply H. left. exact E.
  - simpl. f_equal. apply IH. intros Hin. apply H. right. exact Hin.
Qed.

(** X29: Add then remove: closing a notification by the id [addNotification]
    returned gives back the list of before, provided no notification on
    screen already had that id; closing any other id leaves the new
    notification on screen. *)
Theorem notification_add_then_remove (now : Z) (message : string)
        (type : option string) (duration : option Q) (l : list Notification) :
  ~ In now (map id l) ->
  removeNotification (snd (addNotification now message type duration l))
                     (fst (addNotification now message type duration l))
  = l /\
  forall i, i <> now ->
            removeNotification i (fst (addNotification now message type duration l))
            = removeNotification i l
                ++ [mkNotification now message (default "info" type)
                                   (default 3000 duration)].
Proof.
  intros Hfresh. unfold addNotification. cbn [fst snd]. split.
  - unfold removeNotification. rewrite List.filter_app. simpl.
    rewrite Z.eqb_refl. simpl. rewrite app_nil_r. apply remove_absent, Hfresh.
  - intros i Hi. unfold removeNotification. rewrite List.filter_app. simpl.
    destruct (Z.eqb_spec now i) as [E | _]; [congruence | reflexivity].
Qed.

Lemma notification_add_then_remove_witness :
  removeNotification
    (snd (showInfo 1700000001000 "Moved Sofa left" None Sample.shown))
    (fst (showInfo 1700000001000 "Moved Sofa left" None Sample.shown))
  = Sample.shown.
Proof.
  apply (notification_add_then_remove 1700000001000 "Moved Sofa left"
           (Some "info") None Sample.shown).
  simpl. intros [H | [H | []]]; discriminate H.
Defined.

End Notifications.
